(** * raspberry_Pi.py: a CPU stress harness with phase/intensity escalation

    A shallow embedding of [src/raspberry_Pi.py].  Python integers are [Z]
    (unbounded; the memory they take is not counted), wall-clock instants
    returned by [time.time()] are rationals [Q] and their differences are
    exact, byte strings are [list byte], text is a list of code points.  The
    objects handed out by [multiprocessing.Manager().Value] are references
    into a store kept by the manager process, modelled as a [gmap] from
    cells to their content.  Library calls that can fail return a [result];
    the parts of the Python runtime that are not in the repository (floating
    point, [int()], [float()], SHA-256, the random generator, the largest
    index and the allocations the runtime refuses) are the fields of the
    class [PyRuntime]. *)

From Stdlib Require Import ZArith QArith Lqa String Ascii.
From Stdlib.Strings Require Import Byte.
From stdpp Require Import gmap list.

Local Open Scope Z_scope.

(** ** Exceptions and fallible computations *)

(** The exception classes this program can meet.  [KeyboardInterrupt] and
    [SystemExit] derive from [BaseException] only; all the others derive
    from [Exception]. *)
Inductive exn :=
| CalledProcessError
| FileNotFoundError
| OSError
| UnicodeDecodeError
| IndexError
| ValueError
| TypeError
| OverflowError
| MemoryError
| ZeroDivisionError
| KeyboardInterrupt
| SystemExit (code : Z).

Definition is_Exception (e : exn) : bool :=
  match e with
  | KeyboardInterrupt | SystemExit _ => false
  | _ => true
  end.

Inductive result (A : Type) :=
| Ret (a : A)
| Raise (e : exn).
Arguments Ret {A} a.
Arguments Raise {A} e.

#[global] Instance result_ret : MRet result := fun _ a => Ret a.
#[global] Instance result_bind : MBind result := fun _ _ f m =>
  match m with
  | Ret a => f a
  | Raise e => Raise e
  end.
#[global] Instance result_fmap : FMap result := fun _ _ f m =>
  match m with
  | Ret a => Ret (f a)
  | Raise e => Raise e
  end.

(** [try: body / except Exception: return None], where the body ends in
    [return v]. *)
Definition try_except_Exception {A} (body : result A) : result (option A) :=
  match body with
  | Ret v => Ret (Some v)
  | Raise e => if is_Exception e then Ret None else Raise e
  end.

(** ** Text and bytes *)

Definition bytes := list byte.
Definition codepoint := N.
Definition str := list codepoint.

Definition b (s : string) : bytes := list_byte_of_string s.

Definition is_cont (x : N) : bool := ((128 <=? x) && (x <=? 191))%N.
Definition in_range (lo hi x : N) : bool := ((lo <=? x) && (x <=? hi))%N.
Definition cont_bits (x : N) : N := (x - 128)%N.

(** [bytes.decode('utf-8')] in strict mode: well-formed UTF-8 only (no
    overlong forms, no surrogates, nothing above U+10FFFF). *)
Fixpoint utf8 (l : list N) : result str :=
  match l with
  | [] => Ret []
  | b0 :: l1 =>
    if (b0 <? 128)%N then r ← utf8 l1; Ret (b0 :: r)
    else match l1 with
    | [] => Raise UnicodeDecodeError
    | b1 :: l2 =>
      if in_range 194 223 b0 then
        if is_cont b1
        then r ← utf8 l2; Ret (((b0 - 192) * 64 + cont_bits b1)%N :: r)
        else Raise UnicodeDecodeError
      else match l2 with
      | [] => Raise UnicodeDecodeError
      | b2 :: l3 =>
        if in_range 224 239 b0 then
          if (if (b0 =? 224)%N then in_range 160 191 b1
              else if (b0 =? 237)%N then in_range 128 159 b1
              else is_cont b1) && is_cont b2
          then r ← utf8 l3;
               Ret ((((b0 - 224) * 64 + cont_bits b1) * 64 + cont_bits b2)%N :: r)
          else Raise UnicodeDecodeError
        else match l3 with
        | [] => Raise UnicodeDecodeError
        | b3 :: l4 =>
          if in_range 240 244 b0 then
            if (if (b0 =? 240)%N then in_range 144 191 b1
                else if (b0 =? 244)%N then in_range 128 143 b1
                else is_cont b1) && is_cont b2 && is_cont b3
            then r ← utf8 l4;
                 Ret (((((b0 - 240) * 64 + cont_bits b1) * 64 + cont_bits b2) * 64
                       + cont_bits b3)%N :: r)
            else Raise UnicodeDecodeError
          else Raise UnicodeDecodeError
        end
      end
    end
  end.

Definition decode_utf8 (bs : bytes) : result str := utf8 (map Byte.to_N bs).

(** [s.split(sep)] for a separator of one character: the pieces between
    the occurrences of [sep], never an empty list. *)
Fixpoint split (sep : codepoint) (s : str) : list str :=
  match s with
  | [] => [[]]
  | c :: s' =>
    if (c =? sep)%N then [] :: split sep s'
    else match split sep s' with
         | [] => [[c]]
         | p :: ps => (c :: p) :: ps
         end
  end.

(** [l[i]] for a list and a non-negative literal index. *)
Definition index {A} (l : list A) (i : nat) : result A :=
  match l !! i with
  | Some x => Ret x
  | None => Raise IndexError
  end.

Definition equals_sign : codepoint := 61%N.
Definition apostrophe : codepoint := 39%N.

(** ** The Python runtime outside the repository *)

Class PyRuntime := {
  (** the type [float] (IEEE binary64 in CPython) *)
  float : Type;
  fzero : float;
  fadd : float → float → float;
  fmul : float → float → float;
  (** [int(s)] and [float(s)] on text: a value, or [None] for [ValueError] *)
  py_int : str → option Z;
  py_float : str → option float;
  (** [n / m] on integers with [m] not zero: a float, or [None] for
      [OverflowError] (the quotient is too large for a float) *)
  py_truediv : Z → Z → option float;
  (** [hashlib.sha256(data).digest()] *)
  sha256 : bytes → bytes;
  (** the k-th number drawn by [np.random.rand] *)
  rand : nat → float;
  (** [sys.maxsize], the largest index of the build *)
  maxsize : Z;
  (** the exception, if any, with which the runtime refuses to allocate a
      new bytes object of that length ([MemoryError]) *)
  bytes_refused : Z → option exn;
  (** the exception, if any, with which numpy refuses to create an array of
      floats of that shape for another reason than a negative dimension: a
      dimension that is no index, a size beyond its limit, no memory *)
  array_refused : Z → Z → option exn
}.

Definition or_raise {A} (e : exn) (o : option A) : result A :=
  match o with
  | Some a => Ret a
  | None => Raise e
  end.

(** ** Values passed to the workers *)

(** A cell of the manager's store; [manager.Value] returns a proxy for a
    fresh cell. *)
Definition cell := nat.

(** What [stress_worker] and the load generators can receive: an integer,
    or a [ValueProxy] for a cell of the manager. *)
Inductive value :=
| VInt (z : Z)
| VProxy (c : cell).

(** [v == n] for an integer literal [n].  [ValueProxy] defines no [__eq__],
    so Python falls back on identity and a proxy never equals an integer. *)
Definition py_eq (v : value) (n : Z) : bool :=
  match v with
  | VInt z => z =? n
  | VProxy _ => false
  end.

(** [v * n] for an integer literal [n].  [ValueProxy] defines no
    multiplication: [TypeError]. *)
Definition py_mul (v : value) (n : Z) : result Z :=
  match v with
  | VInt z => Ret (z * n)
  | VProxy _ => Raise TypeError
  end.

(** [for _ in range(n): body]: the loop state after the loop, and the number
    of times the body ran.  [range(n)] is empty for [n <= 0]. *)
Fixpoint iterate {A} (n : nat) (body : A → A) (x : A) : A * nat :=
  match n with
  | O => (x, O)
  | S n' => let '(y, k) := iterate n' body (body x) in (y, S k)
  end.

Definition for_range {A} (n : Z) (body : A → A) (x : A) : A * nat :=
  iterate (Z.to_nat n) body x.

(** [n] copies of [data], none for [n <= 0]. *)
Definition repeated (data : bytes) (n : Z) : bytes :=
  concat (replicate (Z.to_nat n) data).

Section Workload.
Context `{rt : PyRuntime}.

(** [data * n] on bytes.  The count must fit an index and the length of the
    result must not exceed [sys.maxsize], [OverflowError] otherwise; a
    negative count counts as 0; a result as long as [data] is [data]
    itself; any other result is a new object, which the runtime may
    refuse. *)
Definition repeat_bytes (data : bytes) (n : Z) : result bytes :=
  let len := Z.of_nat (length data) in
  if (n <? - maxsize - 1) || (maxsize <? n) then Raise OverflowError
  else
    let count := Z.max n 0 in
    if maxsize <? len * count then Raise OverflowError
    else if len * count =? len then Ret data
    else match bytes_refused (len * count) with
         | Some e => Raise e
         | None => Ret (repeated data count)
         end.

(** ** Load generators *)

(** A numpy array of two dimensions: its shape and its entries. *)
Record ndarray := {
  nrows : nat;
  ncols : nat;
  entry : nat → nat → float
}.

(** [np.random.rand(n, m)] once [k] numbers have been drawn from the
    generator: the exception of numpy when it refuses the shape,
    [ValueError] on a negative dimension, the array of the next [n * m]
    numbers otherwise. *)
Definition np_random_rand (k : nat) (n m : Z) : result ndarray :=
  match array_refused n m with
  | Some e => Raise e
  | None =>
    if (n <? 0) || (m <? 0) then Raise ValueError
    else Ret {| nrows := Z.to_nat n; ncols := Z.to_nat m;
                entry := fun i j => rand (k + i * Z.to_nat m + j)%nat |}
  end.

(** The entries of the matrix product. *)
Definition product_entry (a c : ndarray) (i j : nat) : float :=
  foldl (fun acc k => fadd acc (fmul (entry a i k) (entry c k j)))
        fzero (seq 0 (ncols a)).

(** [np.dot(a, b)] on two-dimensional arrays: [ValueError] when the inner
    dimensions differ, the exception of numpy when it refuses an array of
    the shape of the result, the matrix product otherwise. *)
Definition np_dot (a c : ndarray) : result ndarray :=
  if (ncols a =? nrows c)%nat
  then match array_refused (Z.of_nat (nrows a)) (Z.of_nat (ncols c)) with
       | Some e => Raise e
       | None => Ret {| nrows := nrows a; ncols := ncols c;
                        entry := product_entry a c |}
       end
  else Raise ValueError.

(** What one call of a load generator computed before discarding it. *)
Inductive work :=
| SimpleArithmetic (x : Z) (iterations : nat)
| ComplexArithmetic (x : Z) (iterations : nat)
| MatrixOperations (a c product : ndarray)
| IntensiveHashing (data : bytes) (digest : option bytes) (iterations : nat).

Definition simple_arithmetic (intensity : value) : result work :=
  n ← py_mul intensity 500;
  let '(x, k) := for_range n (fun x => x + 1) 0 in
  Ret (SimpleArithmetic x k).

Definition complex_arithmetic (intensity : value) : result work :=
  n ← py_mul intensity 1000;
  let '(x, k) := for_range n (fun x => x * 2) 1 in
  Ret (ComplexArithmetic x k).

(** [drawn] counts the numbers taken from numpy's generator so far. *)
Definition matrix_operations (drawn : nat) (intensity : value) : result work :=
  size ← py_mul intensity 15;
  a ← np_random_rand drawn size size;
  c ← np_random_rand (drawn + nrows a * ncols a) size size;
  product ← np_dot a c;
  Ret (MatrixOperations a c product).

Definition intensive_hashing (intensity : value) : result work :=
  len ← py_mul intensity 10;
  data ← repeat_bytes (b "stress_data") len;
  n ← py_mul intensity 20;
  let '(d, k) := for_range n (fun _ => Some (sha256 data)) None in
  Ret (IntensiveHashing data d k).

(** ** The worker *)

(** One turn of the [while True] loop of [stress_worker]: the generator
    call made in it, if any.  [phase] and [intensity] are the arguments the
    function was called with; the body never assigns or dereferences
    them. *)
Definition stress_worker_body (drawn : nat) (phase intensity : value)
  : result (option work) :=
  if py_eq phase 1 then Some <$> simple_arithmetic intensity
  else if py_eq phase 2 then Some <$> complex_arithmetic intensity
  else if py_eq phase 3 then Some <$> matrix_operations drawn intensity
  else if py_eq phase 4 then Some <$> intensive_hashing intensity
  else Ret None.

Definition drawn_by (w : option work) : nat :=
  match w with
  | Some (MatrixOperations a c _) => nrows a * ncols a + nrows c * ncols c
  | _ => 0
  end.

(** The first [turns] turns of the loop: the calls made, or the exception
    that ended the process. *)
Fixpoint stress_worker (turns : nat) (drawn : nat) (phase intensity : value)
  : result (list (option work)) :=
  match turns with
  | O => Ret []
  | S n =>
    w ← stress_worker_body drawn phase intensity;
    ws ← stress_worker n (drawn + drawn_by w) phase intensity;
    Ret (w :: ws)
  end.

End Workload.

(** ** The operating system, as seen by one turn of the control loop *)

Record platform `{rt : PyRuntime} := {
  (** [time.time()] at the top of the turn *)
  time_time : Q;
  (** [subprocess.check_output(cmd)]: the captured output, or the exception
      raised (command missing, non-zero exit status, an interrupt while
      waiting, ...) *)
  check_output : list string → result bytes;
  (** [os.getloadavg()] *)
  getloadavg : result (float * float * float);
  (** [psutil.cpu_percent(interval=0.1)] *)
  cpu_percent : result float;
  (** [time.sleep(0.2)]; raises [KeyboardInterrupt] when the signal arrives *)
  time_sleep : result ()
}.

Section Harness.
Context `{rt : PyRuntime}.

(** ** Sensors *)

Definition measure_clock : list string := ["vcgencmd"; "measure_clock"; "arm"]%string.
Definition measure_temp : list string := ["vcgencmd"; "measure_temp"]%string.

(** The body of the [try] of [get_cpu_frequency]. *)
Definition frequency_reading (os : platform) : result float :=
  out ← check_output os measure_clock;
  freq_str ← decode_utf8 out;
  field ← index (split equals_sign freq_str) 1;
  n ← or_raise ValueError (py_int field);
  or_raise OverflowError (py_truediv n 1000000).

Definition get_cpu_frequency (os : platform) : result (option float) :=
  try_except_Exception (frequency_reading os).

(** The body of the [try] of [get_cpu_temperature]. *)
Definition temperature_reading (os : platform) : result float :=
  out ← check_output os measure_temp;
  temp_str ← decode_utf8 out;
  field ← index (split equals_sign temp_str) 1;
  number ← index (split apostrophe field) 0;
  or_raise ValueError (py_float number).

Definition get_cpu_temperature (os : platform) : result (option float) :=
  try_except_Exception (temperature_reading os).

(** ** The control loop of [main] *)

(** The lines [main] prints. *)
Inductive line :=
| Detected (num_cores : nat)
| Escalating (phase intensity : Z)
| Sample (phase intensity : Z) (cpu_freq cpu_temp : option float)
         (cpu_usage : float) (load_avg : float * float * float)
| Stopping.

(** A worker process: the order in which it was created and the arguments
    of its [stress_worker]. *)
Record process := {
  created : nat;
  args : value * value
}.

Inductive event :=
| Print (l : line)
| SetValue (c : cell) (v : Z)      (* [proxy.value = v], one request to the manager *)
| Start (p : process)
| Terminate (p : process).

(** The local variables of [main] that the loop updates, and the content
    of the manager's cells. *)
Record state := {
  phase : Z;
  intensity : Z;
  phase_start_time : Q;
  last_log_time : Q;
  manager : gmap cell Z
}.

Definition phase_duration : Q := 30.

Section Loop.
Variables shared_phase shared_intensity : cell.

(** Lines 91-99: "Escalate phase and intensity". *)
Definition escalate (current_time : Q) (s : state) : state * list event :=
  if Qle_bool phase_duration (current_time - phase_start_time s) then
    let phase1 := phase s + 1 in
    let phase2 := if 4 <? phase1 then 4 else phase1 in
    let m1 := <[shared_phase := phase2]> (manager s) in
    let intensity1 := intensity s + 1 in
    let m2 := <[shared_intensity := intensity1]> m1 in
    ({| phase := phase2; intensity := intensity1;
        phase_start_time := current_time;
        last_log_time := last_log_time s; manager := m2 |},
     [SetValue shared_phase phase2; SetValue shared_intensity intensity1;
      Print (Escalating phase2 intensity1)])
  else (s, []).

(** Lines 101-108: "Log every 1 second". *)
Definition log_sample (os : platform) (s : state) : result (state * list event) :=
  if Qle_bool 1 (time_time os - last_log_time s) then
    cpu_freq ← get_cpu_frequency os;
    cpu_temp ← get_cpu_temperature os;
    load_avg ← getloadavg os;
    cpu_usage ← cpu_percent os;
    Ret ({| phase := phase s; intensity := intensity s;
            phase_start_time := phase_start_time s;
            last_log_time := time_time os; manager := manager s |},
         [Print (Sample (phase s) (intensity s) cpu_freq cpu_temp cpu_usage load_avg)])
  else Ret (s, []).

(** One turn of [while True]: the events it emitted, and the state after
    it or the exception that left the loop. *)
Definition loop_body (os : platform) (s : state) : list event * result state :=
  let current_time := time_time os in
  let '(s1, ev1) := escalate current_time s in
  match log_sample os s1 with
  | Raise e => (ev1, Raise e)
  | Ret (s2, ev2) =>
    match time_sleep os with
    | Raise e => (ev1 ++ ev2, Raise e)
    | Ret _ => (ev1 ++ ev2, Ret s2)
    end
  end.

(** The loop over the turns the operating system lets it make: each turn
    with its [current_time] and events; [Ret s] when the loop is still
    running in state [s] after them. *)
Fixpoint control_loop (oss : list platform) (s : state)
  : list (Q * list event) * result state :=
  match oss with
  | [] => ([], Ret s)
  | os :: oss' =>
    match loop_body os s with
    | (evs, Raise e) => ([(time_time os, evs)], Raise e)
    | (evs, Ret s') =>
      let '(turns, r) := control_loop oss' s' in
      ((time_time os, evs) :: turns, r)
    end
  end.

End Loop.

(** ** [main] *)

(** [manager.Value('i', v)]: a fresh cell holding [v] (the type code is not
    enforced by the manager) and the proxy for it. *)
Definition manager_Value (m : gmap cell Z) (v : Z) : gmap cell Z * cell :=
  let c := fresh (dom m) in (<[c := v]> m, c).

Inductive outcome :=
| Running (s : state)
| Exit (status : Z)
| Uncaught (e : exn).

Record run := {
  startup : list event;
  turns : list (Q * list event);
  shutdown : list event;
  final : outcome
}.

(** The processes of the loop [for _ in range(num_cores)]: each one gets
    the two proxies as the arguments of [stress_worker]. *)
Definition spawn (num_cores : nat) (shared_phase shared_intensity : cell)
  : list process :=
  map (fun i => {| created := i;
                   args := (VProxy shared_phase, VProxy shared_intensity) |})
      (seq 0 num_cores).

(** The state in which [main] enters the loop. *)
Definition initial_state (t0 t1 : Q) (m : gmap cell Z) : state :=
  {| phase := 1; intensity := 1; phase_start_time := t0;
     last_log_time := t1; manager := m |}.

(** [num_cores] is [multiprocessing.cpu_count()], [t0] and [t1] are the two
    readings of [time.time()] before the loop, [oss] the turns of the loop.
    An exception other than [KeyboardInterrupt] leaves [main] unhandled;
    [sys.exit(0)] ends the process with status 0. *)
Definition main (num_cores : nat) (t0 t1 : Q) (oss : list platform) : run :=
  let '(m1, shared_phase) := manager_Value ∅ 1 in
  let '(m2, shared_intensity) := manager_Value m1 1 in
  let processes := spawn num_cores shared_phase shared_intensity in
  let '(trn, r) :=
    control_loop shared_phase shared_intensity oss (initial_state t0 t1 m2) in
  let before := Print (Detected num_cores) :: map Start processes in
  match r with
  | Ret s => {| startup := before; turns := trn; shutdown := []; final := Running s |}
  | Raise KeyboardInterrupt =>
    {| startup := before; turns := trn;
       shutdown := Print Stopping :: map Terminate processes;
       final := Exit 0 |}
  | Raise e => {| startup := before; turns := trn; shutdown := []; final := Uncaught e |}
  end.

(** ** Observations on runs *)

Section Observations.
Variables shared_phase shared_intensity : cell.

(** Escalation ticks at the instants [nows], one after the other. *)
Fixpoint ticks (nows : list Q) (s : state) : state * list event :=
  match nows with
  | [] => (s, [])
  | now :: rest =>
    let '(s1, ev1) := escalate shared_phase shared_intensity now s in
    let '(s2, ev2) := ticks rest s1 in
    (s2, ev1 ++ ev2)
  end.

(** The content of the manager after each request of a list of events:
    what another process can find there between two requests. *)
Fixpoint stores (m : gmap cell Z) (evs : list event) : list (gmap cell Z) :=
  match evs with
  | [] => []
  | SetValue c v :: evs' => <[c := v]> m :: stores (<[c := v]> m) evs'
  | _ :: evs' => stores m evs'
  end.

(** What a process reading both cells finds. *)
Definition published (m : gmap cell Z) : option Z * option Z :=
  (m !! shared_phase, m !! shared_intensity).

End Observations.

Definition is_escalating (e : event) : bool :=
  match e with
  | Print (Escalating _ _) => true
  | _ => false
  end.

Definition is_sample (e : event) : bool :=
  match e with
  | Print (Sample _ _ _ _ _ _) => true
  | _ => false
  end.

(** The number of escalations a list of events reports. *)
Definition escalations (evs : list event) : nat :=
  length (filter (fun e => is_escalating e = true) evs).

(** The instants of the turns that printed a sample. *)
Definition sample_times (trn : list (Q * list event)) : list Q :=
  map fst (filter (fun t => existsb is_sample (snd t) = true) trn).

(** The processes an event list terminates, in order. *)
Definition terminated (evs : list event) : list process :=
  omap (fun e => match e with Terminate p => Some p | _ => None end) evs.

Definition started (evs : list event) : list process :=
  omap (fun e => match e with Start p => Some p | _ => None end) evs.

(** Two states that differ at most in [last_log_time]. *)
Definition same_escalation (s s' : state) : Prop :=
  phase s = phase s' ∧ intensity s = intensity s'
  ∧ phase_start_time s = phase_start_time s' ∧ manager s = manager s'.

End Harness.

(** ** Time windows *)

(** [t] lies in the window [[a, a + len)]. *)
Definition in_window (a len t : Q) : bool :=
  Qle_bool a t && negb (Qle_bool (a + len) t).

Definition count_in_window (a len : Q) (ts : list Q) : nat :=
  length (filter (fun t => in_window a len t = true) ts).

(** Consecutive instants never go back and are at most [d] apart, starting
    from [prev]. *)
Fixpoint paced (d prev : Q) (ts : list Q) : Prop :=
  match ts with
  | [] => True
  | t :: ts' => (prev <= t)%Q ∧ (t <= prev + d)%Q ∧ paced d t ts'
  end.

(** Which instants of [ts] the comparison of line 102 selects, [last]
    being [last_log_time]. *)
Fixpoint due (last : Q) (ts : list Q) : list Q :=
  match ts with
  | [] => []
  | t :: ts' =>
    if Qle_bool 1 (t - last) then t :: due t ts' else due last ts'
  end.

(** ** A runtime to evaluate the model on examples *)

(** Exact rationals stand for floats, [int()] and [float()] read ASCII
    decimal literals (surrounding ASCII white space allowed, no exponent, no
    underscore), the random stream is constant and a byte sum padded to 32
    bytes stands for the SHA-256 digest.  Indices have 64 bits, no bytes
    object above 4 GiB and no array with a side above 16384 is allocated.
    The theorems below hold for every runtime; this one only serves to run
    the definitions. *)

Definition is_space (c : codepoint) : bool :=
  in_range 9 13 c || in_range 28 32 c.

Fixpoint lstrip (s : str) : str :=
  match s with
  | c :: s' => if is_space c then lstrip s' else s
  | [] => []
  end.

Definition strip (s : str) : str := rev (lstrip (rev (lstrip s))).

(** The number written by a non-empty list of ASCII digits, most
    significant first, after the digits already read into [acc]. *)
Fixpoint digits (acc : Z) (s : str) : option Z :=
  match s with
  | [] => Some acc
  | c :: s' =>
    if in_range 48 57 c then digits (acc * 10 + (Z.of_N c - 48)) s' else None
  end.

Definition signed (s : str) : Z * str :=
  match s with
  | 43%N :: r => (1, r)
  | 45%N :: r => (-1, r)
  | _ => (1, s)
  end.

Definition ascii_int (s : str) : option Z :=
  let '(sign, body) := signed (strip s) in
  match body with
  | [] => None
  | _ => n ← digits 0 body; Some (sign * n)
  end.

Definition ascii_float (s : str) : option Q :=
  let '(sign, body) := signed (strip s) in
  match split 46%N body with
  | [whole] =>
    match whole with
    | [] => None
    | _ => n ← digits 0 whole; Some (inject_Z (sign * n))
    end
  | [whole; frac] =>
    match whole ++ frac with
    | [] => None
    | _ =>
      n ← digits 0 (whole ++ frac);
      Some (inject_Z (sign * n) / inject_Z (10 ^ Z.of_nat (length frac)))%Q
    end
  | _ => None
  end.

Definition byte_sum (data : bytes) : bytes :=
  match Byte.of_N (foldr (fun x acc => (Byte.to_N x + acc) mod 256)%N 0%N data) with
  | Some x => x :: replicate 31 "000"%byte
  | None => replicate 32 "000"%byte
  end.

Definition example_runtime : PyRuntime := {|
  float := Q;
  fzero := 0%Q;
  fadd := Qplus;
  fmul := Qmult;
  py_int := ascii_int;
  py_float := ascii_float;
  py_truediv := fun n m => Some (inject_Z n / inject_Z m)%Q;
  sha256 := byte_sum;
  rand := fun _ => (1 # 2)%Q;
  maxsize := 2 ^ 63 - 1;
  bytes_refused := fun n => if 2 ^ 32 <? n then Some MemoryError else None;
  array_refused := fun n m =>
    if (2 ^ 14 <? n) || (2 ^ 14 <? m) then Some MemoryError else None
|}.

Definition line_feed : string := String (ascii_of_nat 10) EmptyString.

(** What [vcgencmd] prints on a Raspberry Pi, and what it prints when it
    cannot reach the firmware. *)
Definition clock_output : bytes := b (String.append "frequency(48)=1500000000" line_feed).
Definition temp_output : bytes := b (String.append "temp=48.3'C" line_feed).
Definition vchi_output : bytes := b (String.append "VCHI initialization failed" line_feed).

Definition idle_load : Q * Q * Q := (4 # 1, 2 # 1, 1 # 1)%Q.

(** A Raspberry Pi answering both [vcgencmd] queries at instant [t]. *)
Definition pi_at (t : Q) : @platform example_runtime :=
  @Build_platform example_runtime t
    (fun cmd =>
       if decide (cmd = measure_clock) then Ret clock_output
       else if decide (cmd = measure_temp) then Ret temp_output
       else Raise FileNotFoundError)
    (Ret idle_load) (Ret (100 # 1)%Q) (Ret ()).

(** The same machine when the temperature query prints nothing usable. *)
Definition pi_without_temperature (t : Q) : @platform example_runtime :=
  @Build_platform example_runtime t
    (fun cmd =>
       if decide (cmd = measure_clock) then Ret clock_output
       else if decide (cmd = measure_temp) then Ret vchi_output
       else Raise FileNotFoundError)
    (Ret idle_load) (Ret (100 # 1)%Q) (Ret ()).

(** A machine without [vcgencmd]. *)
Definition desktop_at (t : Q) : @platform example_runtime :=
  @Build_platform example_runtime t
    (fun _ => Raise FileNotFoundError)
    (Ret idle_load) (Ret (100 # 1)%Q) (Ret ()).

(** The signal arrives during the sleep of the turn at instant [t]. *)
Definition interrupted_at (t : Q) : @platform example_runtime :=
  @Build_platform example_runtime t
    (fun _ => Raise FileNotFoundError)
    (Ret idle_load) (Ret (100 # 1)%Q) (Raise KeyboardInterrupt).

(** The signal arrives while the turn at instant [t] waits for [vcgencmd]. *)
Definition query_interrupted_at (t : Q) : @platform example_runtime :=
  @Build_platform example_runtime t
    (fun _ => Raise KeyboardInterrupt)
    (Ret idle_load) (Ret (100 # 1)%Q) (Ret ()).

(** A machine on which the load average cannot be obtained. *)
Definition load_unavailable_at (t : Q) : @platform example_runtime :=
  @Build_platform example_runtime t
    (fun _ => Raise FileNotFoundError)
    (Raise OSError) (Ret (100 # 1)%Q) (Ret ()).

Example get_cpu_frequency_pi :
  get_cpu_frequency (pi_at 0) = Ret (Some (1500000000 # 1000000)%Q).
Proof. vm_compute. reflexivity. Qed.

Example get_cpu_temperature_pi :
  get_cpu_temperature (pi_at 0) = Ret (Some (483 # 10)%Q).
Proof. vm_compute. reflexivity. Qed.

(** The reading a sensor function hands to its caller when the body of its
    [try] ended as [r]: the value, or [None] after an exception. *)
Definition reading_of {A} (r : result A) : option A :=
  match r with
  | Ret v => Some v
  | Raise _ => None
  end.

(** ** Pieces of a text *)

(** The part of [s] before the first [sep], all of [s] when it holds no
    [sep]; and the part after the first [sep], if there is one. *)
Fixpoint before (sep : codepoint) (s : str) : str :=
  match s with
  | [] => []
  | c :: s' => if (c =? sep)%N then [] else c :: before sep s'
  end.

Fixpoint after (sep : codepoint) (s : str) : option str :=
  match s with
  | [] => None
  | c :: s' => if (c =? sep)%N then Some s' else after sep s'
  end.

(** ** Statements compared with the code *)

(** Consecutive instants never go back and are less than [d] apart,
    starting from [prev]. *)
Fixpoint spaced_below (d prev : Q) (ts : list Q) : Prop :=
  match ts with
  | [] => True
  | t :: ts' => (prev <= t)%Q ∧ (t - prev < d)%Q ∧ spaced_below d t ts'
  end.

(** "Ticks spaced less than [phase_duration] apart never change phase or
    intensity." *)
Definition closely_spaced_ticks_change_nothing `{rt : PyRuntime}
    (shared_phase shared_intensity : cell) (s : state) (nows : list Q) : Prop :=
  spaced_below phase_duration (phase_start_time s) nows →
  phase (fst (ticks shared_phase shared_intensity nows s)) = phase s
  ∧ intensity (fst (ticks shared_phase shared_intensity nows s)) = intensity s.

(** "The pair (phase, intensity) is published atomically": whenever another
    process looks during a tick, it finds the pair of before the tick or
    the pair of after it. *)
Definition published_atomically `{rt : PyRuntime}
    (shared_phase shared_intensity : cell) (now : Q) (s : state) : Prop :=
  ∀ m, m ∈ stores (manager s) (snd (escalate shared_phase shared_intensity now s)) →
    published shared_phase shared_intensity m
    = published shared_phase shared_intensity (manager s)
    ∨ published shared_phase shared_intensity m
      = published shared_phase shared_intensity
          (manager (fst (escalate shared_phase shared_intensity now s))).

(** "At least one sample in every window of one time unit": every window
    [[a, a + 1]] that begins after the loop was entered and ends before its
    last turn holds the instant of a sample. *)
Definition a_sample_in_every_unit_window
    (last : Q) (turn_times samples : list Q) : Prop :=
  ∀ a : Q, (last <= a)%Q → (∃ t, t ∈ turn_times ∧ (a + 1 <= t)%Q) →
    ∃ t, t ∈ samples ∧ (a <= t)%Q ∧ (t <= a + 1)%Q.

(** "[intensive_hashing] performs 20*k hashes": the call returns, having
    run its loop 20*k times. *)
Definition hashes_twenty_times_intensity `{rt : PyRuntime} (k : Z) : Prop :=
  ∃ data digest,
    intensive_hashing (VInt k) = Ret (IntensiveHashing data digest (Z.to_nat (20 * k))).

(** Lines 92-94 as a function of the phase before. *)
Definition next_phase (p : Z) : Z := if 4 <? p + 1 then 4 else p + 1.

(** The cells [main] obtains from the manager. *)
Definition main_shared_phase : cell := snd (manager_Value ∅ 1).
Definition main_shared_intensity : cell :=
  snd (manager_Value (fst (manager_Value ∅ 1)) 1).
Definition main_manager : gmap cell Z :=
  fst (manager_Value (fst (manager_Value ∅ 1)) 1).

(** The instants of the turns of an undisturbed loop entered at 0: 0.2
    after a turn that only slept, 0.3 after a turn that also measured the
    usage for 0.1. *)
Definition undisturbed_turns : list Q :=
  [0; 1 # 5; 2 # 5; 3 # 5; 4 # 5; 1; 13 # 10; 3 # 2; 17 # 10; 19 # 10;
   21 # 10; 12 # 5]%Q.

(** The state in which [main] enters the loop when both clock readings
    are 0. *)
Definition start_of_main : state := initial_state 0 0 main_manager.

(** * Properties *)

(** ** Load generators and workers *)

Section WorkloadFacts.
Context `{rt : PyRuntime}.

Lemma iterate_count {A} (n : nat) (body : A → A) (x : A) :
  snd (iterate n body x) = n.
Proof.
  revert x. induction n as [|n IH]; intros x; simpl; [reflexivity|].
  specialize (IH (body x)). destruct (iterate n body (body x)) as [y k].
  simpl in *. congruence.
Qed.

Lemma iterate_increment (n : nat) (x : Z) :
  fst (iterate n (fun x => x + 1) x) = x + Z.of_nat n.
Proof.
  revert x. induction n as [|n IH]; intros x; simpl; [lia|].
  specialize (IH (x + 1)). destruct (iterate n _ (x + 1)) as [y k].
  simpl in *. lia.
Qed.

Lemma iterate_double (n : nat) (x : Z) :
  fst (iterate n (fun x => x * 2) x) = x * 2 ^ Z.of_nat n.
Proof.
  revert x. induction n as [|n IH]; intros x.
  - simpl. lia.
  - cbn [iterate]. specialize (IH (x * 2)).
    destruct (iterate n _ (x * 2)) as [y k]. cbn [fst] in *.
    rewrite IH, Nat2Z.inj_succ, Z.pow_succ_r by lia. lia.
Qed.

Lemma iterate_digest (n : nat) (data : bytes) (d : option bytes) :
  fst (iterate n (fun _ => Some (sha256 data)) d)
  = match n with O => d | S _ => Some (sha256 data) end.
Proof.
  revert d. induction n as [|n IH]; intros d; [reflexivity|].
  cbn [iterate]. specialize (IH (Some (sha256 data))).
  destruct (iterate n _ (Some (sha256 data))) as [y k]. cbn [fst] in *.
  rewrite IH. destruct n; reflexivity.
Qed.

Lemma for_range_pair {A} (n : Z) (body : A → A) (x : A) :
  for_range n body x = (fst (iterate (Z.to_nat n) body x), Z.to_nat n).
Proof.
  unfold for_range. rewrite <- (iterate_count (Z.to_nat n) body x) at 3.
  destruct (iterate (Z.to_nat n) body x); reflexivity.
Qed.

Lemma simple_arithmetic_int (k : Z) :
  0 ≤ k →
  simple_arithmetic (VInt k) = Ret (SimpleArithmetic (500 * k) (Z.to_nat (500 * k))).
Proof.
  intros Hk. unfold simple_arithmetic. cbn [py_mul mbind result_bind].
  rewrite for_range_pair, iterate_increment, Z2Nat.id by lia.
  do 2 f_equal; [lia | f_equal; lia].
Qed.

Lemma complex_arithmetic_int (k : Z) :
  0 ≤ k →
  complex_arithmetic (VInt k)
  = Ret (ComplexArithmetic (2 ^ (1000 * k)) (Z.to_nat (1000 * k))).
Proof.
  intros Hk. unfold complex_arithmetic. cbn [py_mul mbind result_bind].
  rewrite for_range_pair, iterate_double, Z2Nat.id by lia.
  do 2 f_equal; [rewrite Z.mul_1_l; f_equal; lia | f_equal; lia].
Qed.

Lemma np_random_rand_accepted (drawn : nat) (n : Z) :
  0 ≤ n → array_refused n n = None →
  np_random_rand drawn n n
  = Ret {| nrows := Z.to_nat n; ncols := Z.to_nat n;
           entry := fun i j => rand (drawn + i * Z.to_nat n + j)%nat |}.
Proof.
  intros Hn Hok. unfold np_random_rand. rewrite Hok.
  assert ((n <? 0) = false) as -> by (apply Z.ltb_ge; lia). reflexivity.
Qed.

Lemma np_dot_square (a c : ndarray) (n : Z) :
  0 ≤ n → array_refused n n = None →
  nrows a = Z.to_nat n → ncols a = Z.to_nat n →
  nrows c = Z.to_nat n → ncols c = Z.to_nat n →
  np_dot a c = Ret {| nrows := Z.to_nat n; ncols := Z.to_nat n;
                      entry := product_entry a c |}.
Proof.
  intros Hn Hok Ha1 Ha2 Hc1 Hc2. unfold np_dot.
  rewrite Ha1, Ha2, Hc1, Hc2, Nat.eqb_refl, Z2Nat.id, Hok by lia. reflexivity.
Qed.

Lemma matrix_operations_int (drawn : nat) (k : Z) :
  0 ≤ k →
  array_refused (15 * k) (15 * k) = None →
  ∃ a c product,
    np_random_rand drawn (15 * k) (15 * k) = Ret a
    ∧ np_random_rand (drawn + nrows a * ncols a) (15 * k) (15 * k) = Ret c
    ∧ np_dot a c = Ret product
    ∧ matrix_operations drawn (VInt k) = Ret (MatrixOperations a c product)
    ∧ nrows a = Z.to_nat (15 * k) ∧ ncols a = Z.to_nat (15 * k)
    ∧ nrows c = Z.to_nat (15 * k) ∧ ncols c = Z.to_nat (15 * k)
    ∧ nrows product = Z.to_nat (15 * k) ∧ ncols product = Z.to_nat (15 * k).
Proof.
  intros Hk Hok. assert (Hside : 0 ≤ 15 * k) by lia.
  pose proof (np_random_rand_accepted drawn (15 * k) Hside Hok) as Ha.
  set (a := {| nrows := Z.to_nat (15 * k) |}) in Ha.
  pose proof (np_random_rand_accepted (drawn + nrows a * ncols a) (15 * k)
                Hside Hok) as Hc.
  set (c := {| nrows := Z.to_nat (15 * k) |}) in Hc.
  pose proof (np_dot_square a c (15 * k) Hside Hok eq_refl eq_refl eq_refl eq_refl)
    as Hd.
  exists a, c, {| nrows := Z.to_nat (15 * k); ncols := Z.to_nat (15 * k);
                  entry := product_entry a c |}.
  split; [exact Ha|]. split; [exact Hc|]. split; [exact Hd|]. split.
  - unfold matrix_operations. cbn [py_mul mbind result_bind].
    replace (k * 15) with (15 * k) by lia.
    rewrite Ha. cbn [mbind result_bind]. rewrite Hc. cbn [mbind result_bind].
    rewrite Hd. reflexivity.
  - cbn [nrows ncols]. tauto.
Qed.

Lemma length_repeated (n : Z) :
  length (repeated (b "stress_data") n) = Z.to_nat (11 * n).
Proof.
  unfold repeated. rewrite length_concat.
  replace (Z.to_nat (11 * n)) with (11 * Z.to_nat n)%nat by lia.
  induction (Z.to_nat n) as [|m IH]; [reflexivity|].
  cbn [replicate]. rewrite fmap_cons.
  change (length (b "stress_data")) with 11%nat.
  change (list_sum (11%nat :: ?l)) with (11 + list_sum l)%nat.
  change (list_sum (length <$> replicate m (b "stress_data")))
    with (list_sum (map length (replicate m (b "stress_data")))).
  rewrite IH. lia.
Qed.

(** The buffer of [intensive_hashing]: [n > 1] copies of the 11 bytes. *)
Lemma repeat_bytes_accepted (n : Z) :
  1 < n → 11 * n ≤ maxsize → bytes_refused (11 * n) = None →
  repeat_bytes (b "stress_data") n = Ret (repeated (b "stress_data") n).
Proof.
  intros Hn Hmax Hok. unfold repeat_bytes.
  change (Z.of_nat (length (b "stress_data"))) with 11.
  rewrite Z.max_l by lia.
  assert ((n <? - maxsize - 1) = false) as -> by (apply Z.ltb_ge; lia).
  assert ((maxsize <? n) = false) as -> by (apply Z.ltb_ge; lia).
  assert ((maxsize <? 11 * n) = false) as -> by (apply Z.ltb_ge; lia).
  assert ((11 * n =? 11) = false) as -> by (apply Z.eqb_neq; lia).
  cbn [orb]. rewrite Hok. reflexivity.
Qed.

Lemma repeat_bytes_too_long (n : Z) :
  0 < n → maxsize < 11 * n →
  repeat_bytes (b "stress_data") n = Raise OverflowError.
Proof.
  intros Hn Hmax. unfold repeat_bytes.
  change (Z.of_nat (length (b "stress_data"))) with 11.
  rewrite Z.max_l by lia.
  destruct ((n <? - maxsize - 1) || (maxsize <? n)); [reflexivity|].
  assert ((maxsize <? 11 * n) = true) as -> by (apply Z.ltb_lt; lia).
  reflexivity.
Qed.

Lemma intensive_hashing_int (k : Z) :
  0 < k → 110 * k ≤ maxsize → bytes_refused (110 * k) = None →
  intensive_hashing (VInt k)
  = Ret (IntensiveHashing (repeated (b "stress_data") (10 * k))
           (Some (sha256 (repeated (b "stress_data") (10 * k))))
           (Z.to_nat (20 * k))).
Proof.
  intros Hk Hmax Hok. unfold intensive_hashing. cbn [py_mul mbind result_bind].
  replace (k * 10) with (10 * k) by lia. replace (k * 20) with (20 * k) by lia.
  rewrite repeat_bytes_accepted; [|lia|lia|].
  2: { replace (11 * (10 * k)) with (110 * k) by lia. exact Hok. }
  cbn [mbind result_bind]. rewrite for_range_pair, iterate_digest.
  destruct (Z.to_nat (20 * k)) eqn:E; [lia | reflexivity].
Qed.

Lemma intensive_hashing_too_long (k : Z) :
  0 < k → maxsize < 110 * k →
  intensive_hashing (VInt k) = Raise OverflowError.
Proof.
  intros Hk Hmax. unfold intensive_hashing. cbn [py_mul mbind result_bind].
  rewrite repeat_bytes_too_long; [reflexivity|lia|lia].
Qed.

(** With integer arguments the chain of comparisons selects the generator
    by [phase]: phase 3 with intensity 2 multiplies matrices of side 30. *)
Lemma stress_worker_body_matrix (drawn : nat) :
  array_refused 30 30 = None →
  ∃ a c product,
    stress_worker_body drawn (VInt 3) (VInt 2)
    = Ret (Some (MatrixOperations a c product))
    ∧ nrows a = 30%nat ∧ ncols a = 30%nat ∧ nrows c = 30%nat ∧ ncols c = 30%nat.
Proof.
  intros Hok.
  destruct (matrix_operations_int drawn 2)
    as (a & c & p & _ & _ & _ & E & ? & ? & ? & ? & _); [lia|exact Hok|].
  exists a, c, p. unfold stress_worker_body. cbn [py_eq Z.eqb Pos.eqb].
  rewrite E. auto.
Qed.

(** A proxy compares unequal to 1, 2, 3 and 4: no branch is taken. *)
Lemma stress_worker_body_proxy (drawn : nat) (cp ci : cell) :
  stress_worker_body drawn (VProxy cp) (VProxy ci) = Ret None.
Proof. reflexivity. Qed.

Lemma stress_worker_proxy (n drawn : nat) (cp ci : cell) :
  stress_worker n drawn (VProxy cp) (VProxy ci) = Ret (replicate n None).
Proof.
  revert drawn. induction n as [|n IH]; intros drawn; [reflexivity|].
  cbn [stress_worker]. rewrite stress_worker_body_proxy.
  cbn [mbind result_bind drawn_by]. rewrite IH. reflexivity.
Qed.

Lemma spawn_args (n : nat) (cp ci : cell) (p : process) :
  p ∈ spawn n cp ci → args p = (VProxy cp, VProxy ci).
Proof.
  unfold spawn. intros H. apply list_elem_of_fmap in H as (i & -> & _).
  reflexivity.
Qed.

Lemma started_map_Start (ps : list process) :
  started (map Start ps) = ps.
Proof. induction ps as [|p ps IH]; [reflexivity|]. cbn. unfold started in IH. by rewrite IH. Qed.

Lemma terminated_map_Terminate (ps : list process) :
  terminated (map Terminate ps) = ps.
Proof. induction ps as [|p ps IH]; [reflexivity|]. cbn. unfold terminated in IH. by rewrite IH. Qed.

Lemma main_startup (num_cores : nat) (t0 t1 : Q) (oss : list platform) :
  startup (main num_cores t0 t1 oss)
  = Print (Detected num_cores)
    :: map Start (spawn num_cores (manager_Value ∅ 1).2
                    (manager_Value (manager_Value ∅ 1).1 1).2).
Proof.
  unfold main. cbn [manager_Value fst snd].
  destruct (control_loop _ _ oss _) as [trn [s|e]]; [reflexivity|].
  destruct e; reflexivity.
Qed.

(** C10, amended: for a positive integer intensity [k] every load generator
    ends.  The two arithmetic loops return after 500*k increments and
    1000*k doublings.  [matrix_operations] draws two square matrices of
    side 15*k and returns their product, one call of [np.dot], when numpy
    accepts arrays of that shape.  [intensive_hashing] returns after 20*k
    digests of a buffer of 10*k copies of the 11-byte pattern when the
    110*k bytes of the buffer do not exceed [sys.maxsize] and the runtime
    allocates them; when they exceed [sys.maxsize] it raises
    [OverflowError] before it hashes anything. *)
Theorem load_generators_terminate (k : Z) (drawn : nat) :
  0 < k →
  simple_arithmetic (VInt k)
  = Ret (SimpleArithmetic (500 * k) (Z.to_nat (500 * k)))
  ∧ complex_arithmetic (VInt k)
    = Ret (ComplexArithmetic (2 ^ (1000 * k)) (Z.to_nat (1000 * k)))
  ∧ (array_refused (15 * k) (15 * k) = None →
     ∃ a c product,
       np_random_rand drawn (15 * k) (15 * k) = Ret a
       ∧ np_random_rand (drawn + nrows a * ncols a) (15 * k) (15 * k) = Ret c
       ∧ np_dot a c = Ret product
       ∧ matrix_operations drawn (VInt k) = Ret (MatrixOperations a c product)
       ∧ nrows a = Z.to_nat (15 * k) ∧ ncols a = Z.to_nat (15 * k)
       ∧ nrows c = Z.to_nat (15 * k) ∧ ncols c = Z.to_nat (15 * k)
       ∧ nrows product = Z.to_nat (15 * k) ∧ ncols product = Z.to_nat (15 * k))
  ∧ (∀ e, array_refused (15 * k) (15 * k) = Some e →
          matrix_operations drawn (VInt k) = Raise e)
  ∧ (110 * k ≤ maxsize → bytes_refused (110 * k) = None →
     intensive_hashing (VInt k)
     = Ret (IntensiveHashing (repeated (b "stress_data") (10 * k))
              (Some (sha256 (repeated (b "stress_data") (10 * k))))
              (Z.to_nat (20 * k)))
     ∧ length (repeated (b "stress_data") (10 * k)) = Z.to_nat (110 * k))
  ∧ (110 * k ≤ maxsize → ∀ e, bytes_refused (110 * k) = Some e →
     intensive_hashing (VInt k) = Raise e)
  ∧ (maxsize < 110 * k → intensive_hashing (VInt k) = Raise OverflowError).
Proof.
  intros Hk. split; [apply simple_arithmetic_int; lia|].
  split; [apply complex_arithmetic_int; lia|].
  split; [intros Hok; apply matrix_operations_int; [lia|exact Hok]|].
  split.
  { intros e He. unfold matrix_operations, np_random_rand.
    cbn [py_mul mbind result_bind].
    replace (k * 15) with (15 * k) by lia. rewrite He. reflexivity. }
  split.
  { intros Hmax Hok. split; [apply intensive_hashing_int; (lia || assumption)|].
    rewrite length_repeated. f_equal. lia. }
  split.
  { intros Hmax e He. unfold intensive_hashing, repeat_bytes.
    cbn [py_mul mbind result_bind].
    change (Z.of_nat (length (b "stress_data"))) with 11.
    rewrite Z.max_l by lia.
    assert ((k * 10 <? - maxsize - 1) = false) as -> by (apply Z.ltb_ge; lia).
    assert ((maxsize <? k * 10) = false) as -> by (apply Z.ltb_ge; lia).
    assert ((maxsize <? 11 * (k * 10)) = false) as -> by (apply Z.ltb_ge; lia).
    assert ((11 * (k * 10) =? 11) = false) as -> by (apply Z.eqb_neq; lia).
    cbn [orb]. replace (11 * (k * 10)) with (110 * k) by lia.
    rewrite He. reflexivity. }
  intros Hmax. apply intensive_hashing_too_long; lia.
Qed.

(** C1, as the code behaves: the workers that [main] starts receive the two
    proxies, never dereference them, and compare the proxy itself with 1, 2,
    3 and 4; whatever the shared cells hold, no turn of a worker calls a
    load generator. *)
Theorem workers_of_main_call_no_generator
    (num_cores : nat) (t0 t1 : Q) (oss : list platform) :
  Forall (fun p => ∀ n drawn,
            stress_worker n drawn (fst (args p)) (snd (args p))
            = Ret (replicate n None))
         (started (startup (main num_cores t0 t1 oss))).
Proof.
  rewrite main_startup.
  change (started (Print ?l :: ?evs)) with (started evs).
  rewrite started_map_Start. apply Forall_forall. intros p Hp n drawn.
  rewrite (spawn_args _ _ _ _ Hp). apply stress_worker_proxy.
Qed.

End WorkloadFacts.

Lemma load_generators_terminate_witness :
  0 < 2
  ∧ @simple_arithmetic example_runtime (VInt 2)
    = Ret (SimpleArithmetic (500 * 2) (Z.to_nat (500 * 2)))
  ∧ @complex_arithmetic example_runtime (VInt 2)
    = Ret (ComplexArithmetic (2 ^ (1000 * 2)) (Z.to_nat (1000 * 2)))
  ∧ (∃ a c product,
       @np_dot example_runtime a c = Ret product
       ∧ @matrix_operations example_runtime 0 (VInt 2)
         = Ret (MatrixOperations a c product)
       ∧ nrows product = 30%nat ∧ ncols product = 30%nat)
  ∧ @intensive_hashing example_runtime (VInt 2)
    = Ret (IntensiveHashing (repeated (b "stress_data") (10 * 2))
             (Some (@sha256 example_runtime (repeated (b "stress_data") (10 * 2))))
             (Z.to_nat (20 * 2))).
Proof.
  destruct (@load_generators_terminate example_runtime 2 0 ltac:(lia))
    as (H1 & H2 & H3 & _ & H5 & _).
  split; [lia|]. split; [exact H1|]. split; [exact H2|]. split.
  - destruct (H3 eq_refl) as (a & c & p & _ & _ & Hd & Hm & _ & _ & _ & _ & Hr & Hc).
    exists a, c, p. split; [exact Hd|]. split; [exact Hm|]. split; [exact Hr|exact Hc].
  - apply H5; [vm_compute; discriminate | reflexivity].
Defined.

(** C10, as stated: at intensity 10^17 the buffer of [intensive_hashing]
    would have 1.1 * 10^19 bytes, more than [sys.maxsize] on a build with
    indices of 64 bits; the multiplication of line 31 raises
    [OverflowError] and no digest is taken. *)
Lemma hashing_overflows_at_large_intensity :
  0 < 10 ^ 17 ∧ ¬ @hashes_twenty_times_intensity example_runtime (10 ^ 17).
Proof.
  split; [lia|]. unfold hashes_twenty_times_intensity.
  assert (E : @intensive_hashing example_runtime (VInt (10 ^ 17))
              = Raise OverflowError).
  { apply intensive_hashing_too_long; vm_compute; reflexivity. }
  rewrite E. intros (data & digest & H). discriminate H.
Qed.

(** ** Escalation *)

Section EscalationFacts.
Context `{rt : PyRuntime}.
Variables shared_phase shared_intensity : cell.

Local Abbreviation tick := (escalate shared_phase shared_intensity).
Local Abbreviation run := (ticks shared_phase shared_intensity).

Lemma escalate_early (now : Q) (s : state) :
  (now - phase_start_time s < phase_duration)%Q → tick now s = (s, []).
Proof.
  intros H. unfold escalate.
  destruct (Qle_bool phase_duration (now - phase_start_time s)) eqn:E;
    [|reflexivity].
  apply Qle_bool_iff in E. lra.
Qed.

Lemma escalate_late (now : Q) (s : state) :
  (phase_duration <= now - phase_start_time s)%Q →
  tick now s
  = ({| phase := next_phase (phase s); intensity := intensity s + 1;
        phase_start_time := now; last_log_time := last_log_time s;
        manager := <[shared_intensity := intensity s + 1]>
                     (<[shared_phase := next_phase (phase s)]> (manager s)) |},
     [SetValue shared_phase (next_phase (phase s));
      SetValue shared_intensity (intensity s + 1);
      Print (Escalating (next_phase (phase s)) (intensity s + 1))]).
Proof.
  intros H. apply Qle_bool_iff in H. unfold escalate. rewrite H. reflexivity.
Qed.

(** The two cases of a tick. *)
Lemma escalate_cases (now : Q) (s : state) :
  (Qle_bool phase_duration (now - phase_start_time s) = false
   ∧ tick now s = (s, []))
  ∨ (Qle_bool phase_duration (now - phase_start_time s) = true
     ∧ phase (fst (tick now s)) = next_phase (phase s)
     ∧ intensity (fst (tick now s)) = intensity s + 1
     ∧ escalations (snd (tick now s)) = 1%nat).
Proof.
  unfold escalate.
  destruct (Qle_bool phase_duration (now - phase_start_time s)); [right|left];
    repeat split.
Qed.

Lemma ticks_cons (now : Q) (nows : list Q) (s : state) :
  run (now :: nows) s
  = (fst (run nows (fst (tick now s))),
     snd (tick now s) ++ snd (run nows (fst (tick now s)))).
Proof.
  cbn [ticks]. destruct (tick now s) as [s1 ev1]. cbn [fst snd].
  destruct (run nows s1) as [s2 ev2]. reflexivity.
Qed.

Lemma escalations_app (evs evs' : list event) :
  escalations (evs ++ evs') = (escalations evs + escalations evs')%nat.
Proof. unfold escalations. rewrite filter_app, length_app. reflexivity. Qed.

(** What every run of ticks preserves: the phase stays between 1 and 4 and
    follows the intensity; the intensity counts the escalations. *)
Lemma ticks_invariant (nows : list Q) (s : state) :
  1 ≤ phase s ≤ 4 → phase s = Z.min (intensity s) 4 →
  1 ≤ phase (fst (run nows s)) ≤ 4
  ∧ phase (fst (run nows s)) = Z.min (intensity (fst (run nows s))) 4
  ∧ intensity (fst (run nows s))
    = intensity s + Z.of_nat (escalations (snd (run nows s))).
Proof.
  revert s. induction nows as [|now nows IH]; intros s Hr Hm.
  - cbn [ticks fst snd]. change (escalations []) with 0%nat.
    split; [lia|split; [assumption|lia]].
  - rewrite ticks_cons. cbn [fst snd]. rewrite escalations_app.
    destruct (escalate_cases now s) as [[_ E]|(_ & Ep & Ei & En)].
    + rewrite E. cbn [fst snd]. destruct (IH s Hr Hm) as (? & ? & ?).
      change (escalations []) with 0%nat. repeat split; first [tauto | lia].
    + destruct (IH (fst (tick now s))) as (? & ? & Hi).
      * rewrite Ep. unfold next_phase. destruct (4 <? phase s + 1) eqn:E; lia.
      * rewrite Ep, Ei. unfold next_phase.
        destruct (4 <? phase s + 1) eqn:E; [apply Z.ltb_lt in E|apply Z.ltb_ge in E];
          lia.
      * rewrite Hi, Ei, En. repeat split; first [tauto | lia].
Qed.

(** C2, amended: ticks at instants that all lie less than [phase_duration]
    after [phase_start_time] change nothing, one by one and together: the
    state (phase, intensity, [phase_start_time], the manager's cells) is the
    same and nothing is published or printed. *)
Theorem ticks_within_the_window (s : state) (nows : list Q) :
  Forall (fun now => (now - phase_start_time s < phase_duration)%Q) nows →
  Forall (fun now => tick now s = (s, [])) nows
  ∧ run nows s = (s, []).
Proof.
  induction 1 as [|now nows Hnow _ [IH1 IH2]].
  - split; [constructor | reflexivity].
  - pose proof (escalate_early now s Hnow) as E. split.
    + constructor; assumption.
    + rewrite ticks_cons, E. cbn [fst snd]. rewrite IH2. reflexivity.
Qed.

(** C3: in every run of ticks from phase 1 and intensity 1, whatever the
    instants, each further tick leaves the phase and the intensity where
    they are or moves them up; the phase stays within 1..4; the intensity
    grows by exactly 1 when the tick escalates (the elapsed time has
    reached [phase_duration]) and not at all otherwise. *)
Theorem escalation_is_monotone
    (t0 t1 : Q) (m : gmap cell Z) (nows : list Q) (now : Q) :
  let s := fst (run nows (initial_state t0 t1 m)) in
  let s' := fst (tick now s) in
  1 ≤ phase s ∧ phase s ≤ phase s' ∧ phase s' ≤ 4
  ∧ intensity s ≤ intensity s'
  ∧ intensity s'
    = (if Qle_bool phase_duration (now - phase_start_time s)
       then intensity s + 1 else intensity s).
Proof.
  intros s s'.
  destruct (ticks_invariant nows (initial_state t0 t1 m)) as (Hr & _ & _);
    [cbn; lia | reflexivity |]. fold s in Hr. subst s'.
  destruct (escalate_cases now s) as [[Hc E]|(Hc & Ep & Ei & _)]; rewrite Hc.
  - rewrite E. cbn [fst]. lia.
  - rewrite Ep, Ei. unfold next_phase. destruct (4 <? phase s + 1) eqn:E;
      [apply Z.ltb_lt in E|apply Z.ltb_ge in E]; lia.
Qed.

(** C9: after every run of ticks from phase 1 and intensity 1, the phase is
    the smaller of the intensity and 4, and the intensity is 1 plus the
    number of escalations reported so far. *)
Theorem phase_follows_intensity
    (t0 t1 : Q) (m : gmap cell Z) (nows : list Q) :
  let s := fst (run nows (initial_state t0 t1 m)) in
  let evs := snd (run nows (initial_state t0 t1 m)) in
  phase s = Z.min (intensity s) 4
  ∧ intensity s = 1 + Z.of_nat (escalations evs).
Proof.
  intros s evs.
  destruct (ticks_invariant nows (initial_state t0 t1 m)) as (_ & Hm & Hi);
    [cbn; lia | reflexivity |].
  split; [exact Hm | exact Hi].
Qed.

(** C8, amended: an escalating tick publishes by two requests, the phase
    first and the intensity second.  After the first one the manager holds
    the new phase next to the intensity of before the tick; after the
    second one it holds the new pair. *)
Theorem publication_is_two_writes (now : Q) (s : state) :
  shared_phase ≠ shared_intensity →
  (phase_duration <= now - phase_start_time s)%Q →
  let s' := fst (tick now s) in
  let between := <[shared_phase := phase s']> (manager s) in
  stores (manager s) (snd (tick now s)) = [between; manager s']
  ∧ published shared_phase shared_intensity between
    = (Some (phase s'), manager s !! shared_intensity)
  ∧ published shared_phase shared_intensity (manager s')
    = (Some (phase s'), Some (intensity s')).
Proof.
  intros Hne Hlate s' between. subst s' between.
  rewrite (escalate_late now s Hlate). cbn [fst snd stores phase intensity manager].
  unfold published. split; [reflexivity|]. split; f_equal.
  - apply lookup_insert_eq.
  - apply lookup_insert_ne. exact Hne.
  - rewrite lookup_insert_ne by congruence. apply lookup_insert_eq.
  - apply lookup_insert_eq.
Qed.

End EscalationFacts.

Lemma main_cells :
  main_shared_phase = 0%nat ∧ main_shared_intensity = 1%nat
  ∧ main_manager !! 0%nat = Some 1 ∧ main_manager !! 1%nat = Some 1.
Proof. vm_compute. repeat split. Qed.

(** C2, as stated: from [phase_start_time = 0], ticks at 20 and 40 are 20
    apart, less than [phase_duration], and the second one escalates to
    phase 2 and intensity 2. *)
Lemma closely_spaced_ticks_escalate :
  ¬ @closely_spaced_ticks_change_nothing example_runtime
      main_shared_phase main_shared_intensity start_of_main [20%Q; 40%Q].
Proof.
  unfold closely_spaced_ticks_change_nothing. intros H.
  assert (Hs : spaced_below phase_duration (phase_start_time start_of_main)
                 [20%Q; 40%Q]).
  { cbn. unfold phase_duration. repeat split; lra. }
  destruct (H Hs) as [Hp _]. vm_compute in Hp. discriminate Hp.
Qed.

Lemma ticks_within_the_window_witness :
  Forall (fun now => (now - phase_start_time start_of_main < phase_duration)%Q)
    [10%Q; 20%Q; (299 # 10)%Q]
  ∧ @ticks example_runtime main_shared_phase main_shared_intensity
      [10%Q; 20%Q; (299 # 10)%Q] start_of_main
    = (start_of_main, []).
Proof.
  assert (H : Forall (fun now => (now - phase_start_time start_of_main < phase_duration)%Q)
                [10%Q; 20%Q; (299 # 10)%Q]).
  { repeat constructor; reflexivity. }
  split; [exact H|].
  exact (proj2 (@ticks_within_the_window example_runtime main_shared_phase
                  main_shared_intensity start_of_main _ H)).
Defined.

(** C8, as stated: when [main] escalates for the first time, the manager
    holds phase 2 next to intensity 1 between the two requests, which is
    neither the pair of before (1, 1) nor the pair of after (2, 2). *)
Lemma publication_is_torn :
  ¬ @published_atomically example_runtime
      main_shared_phase main_shared_intensity 30 start_of_main.
Proof.
  unfold published_atomically. intros H.
  destruct (H (<[main_shared_phase := 2]> main_manager)) as [E|E].
  - vm_compute. left.
  - vm_compute in E. discriminate E.
  - vm_compute in E. discriminate E.
Qed.

Lemma publication_is_two_writes_witness :
  main_shared_phase ≠ main_shared_intensity
  ∧ (phase_duration <= 30 - phase_start_time start_of_main)%Q
  ∧ published main_shared_phase main_shared_intensity
      (<[main_shared_phase := 2]> main_manager)
    = (Some 2, Some 1).
Proof.
  assert (Hne : main_shared_phase ≠ main_shared_intensity)
    by (vm_compute; discriminate).
  assert (Hlate : (phase_duration <= 30 - phase_start_time start_of_main)%Q)
    by (vm_compute; discriminate).
  split; [exact Hne|]. split; [exact Hlate|].
  exact (proj1 (proj2 (@publication_is_two_writes example_runtime
                         main_shared_phase main_shared_intensity 30 start_of_main
                         Hne Hlate))).
Defined.

(** ** Sensors and samples *)

Section SensorFacts.
Context `{rt : PyRuntime}.

Lemma utf8_raises_bounded (n : nat) :
  ∀ (l : list N) (e : exn),
    (length l ≤ n)%nat → utf8 l = Raise e → e = UnicodeDecodeError.
Proof.
  induction n as [|n IH]; intros l e Hlen H.
  - destruct l; [discriminate H | cbn in Hlen; lia].
  - destruct l as [|b0 l]; [discriminate H|]. cbn in Hlen.
    assert (Hrec : ∀ l' v, (length l' ≤ n)%nat →
              (r ← utf8 l'; Ret (v :: r)) = Raise e → e = UnicodeDecodeError).
    { intros l' v Hl' Hb. destruct (utf8 l') eqn:E; [discriminate Hb|].
      cbn in Hb. injection Hb as <-. exact (IH l' _ Hl' E). }
    cbn [utf8] in H.
    repeat match type of H with
    | (if ?c then _ else _) = _ => destruct c
    | match ?x with [] => _ | _ :: _ => _ end = _ => destruct x; cbn in Hlen
    end;
    solve [ congruence | eapply Hrec; [|exact H]; lia ].
Qed.

Lemma decode_utf8_raises (bs : bytes) (e : exn) :
  decode_utf8 bs = Raise e → e = UnicodeDecodeError.
Proof. apply (utf8_raises_bounded _ _ _ (le_n _)). Qed.

Lemma index_raises {A} (l : list A) (i : nat) (e : exn) :
  index l i = Raise e → e = IndexError.
Proof. unfold index. destruct (l !! i); congruence. Qed.

Lemma or_raise_raises {A} (e0 : exn) (o : option A) (e : exn) :
  or_raise e0 o = Raise e → e = e0.
Proof. destruct o; cbn; congruence. Qed.

(** An exception leaving the body of a sensor function comes from the
    platform query or is one of the errors of decoding and parsing. *)
Lemma frequency_reading_raises (os : platform) (e : exn) :
  frequency_reading os = Raise e →
  check_output os measure_clock = Raise e ∨ is_Exception e = true.
Proof.
  unfold frequency_reading. destruct (check_output os measure_clock) as [out|e0];
    cbn [mbind result_bind]; [|intros [= <-]; by left].
  destruct (decode_utf8 out) as [txt|e0] eqn:E1; cbn [mbind result_bind];
    [|intros [= <-]; right; by rewrite (decode_utf8_raises _ _ E1)].
  destruct (index _ 1) as [field|e0] eqn:E2; cbn [mbind result_bind];
    [|intros [= <-]; right; by rewrite (index_raises _ _ _ E2)].
  destruct (or_raise ValueError _) as [n|e0] eqn:E3; cbn [mbind result_bind];
    [|intros [= <-]; right; by rewrite (or_raise_raises _ _ _ E3)].
  intros E4. right. by rewrite (or_raise_raises _ _ _ E4).
Qed.

Lemma temperature_reading_raises (os : platform) (e : exn) :
  temperature_reading os = Raise e →
  check_output os measure_temp = Raise e ∨ is_Exception e = true.
Proof.
  unfold temperature_reading. destruct (check_output os measure_temp) as [out|e0];
    cbn [mbind result_bind]; [|intros [= <-]; by left].
  destruct (decode_utf8 out) as [txt|e0] eqn:E1; cbn [mbind result_bind];
    [|intros [= <-]; right; by rewrite (decode_utf8_raises _ _ E1)].
  destruct (index _ 1) as [field|e0] eqn:E2; cbn [mbind result_bind];
    [|intros [= <-]; right; by rewrite (index_raises _ _ _ E2)].
  destruct (index _ 0) as [number|e0] eqn:E3; cbn [mbind result_bind];
    [|intros [= <-]; right; by rewrite (index_raises _ _ _ E3)].
  intros E4. right. by rewrite (or_raise_raises _ _ _ E4).
Qed.

Lemma try_except_Exception_reading {A} (body : result A) :
  (∀ e, body = Raise e → is_Exception e = true) →
  try_except_Exception body = Ret (reading_of body).
Proof.
  intros H. destruct body as [v|e]; [reflexivity|]. cbn.
  by rewrite (H e eq_refl).
Qed.

Lemma get_cpu_frequency_reading (os : platform) :
  (∀ e, check_output os measure_clock = Raise e → is_Exception e = true) →
  get_cpu_frequency os = Ret (reading_of (frequency_reading os)).
Proof.
  intros H. apply try_except_Exception_reading. intros e He.
  destruct (frequency_reading_raises os e He); auto.
Qed.

Lemma get_cpu_temperature_reading (os : platform) :
  (∀ e, check_output os measure_temp = Raise e → is_Exception e = true) →
  get_cpu_temperature os = Ret (reading_of (temperature_reading os)).
Proof.
  intros H. apply try_except_Exception_reading. intros e He.
  destruct (temperature_reading_raises os e He); auto.
Qed.

(** [except Exception] lets an interrupt of the query through, to the
    handler of [main]. *)
Lemma get_cpu_frequency_interrupted (os : platform) :
  check_output os measure_clock = Raise KeyboardInterrupt →
  get_cpu_frequency os = Raise KeyboardInterrupt.
Proof.
  intros H. unfold get_cpu_frequency, frequency_reading. rewrite H. reflexivity.
Qed.

(** C4: whatever the platform query does (it returns well-formed output,
    it returns malformed output, or it fails with an exception of the
    [Exception] family), [get_cpu_frequency] and [get_cpu_temperature]
    return to the caller: the number read, or [None]. *)
Theorem sensors_never_raise (os : platform) :
  (∀ cmd e, check_output os cmd = Raise e → is_Exception e = true) →
  get_cpu_frequency os = Ret (reading_of (frequency_reading os))
  ∧ get_cpu_temperature os = Ret (reading_of (temperature_reading os)).
Proof.
  intros H. split.
  - apply get_cpu_frequency_reading, H.
  - apply get_cpu_temperature_reading, H.
Qed.

(** C5: when a sample is due and the load average and the usage are
    available, the monitor prints one complete sample and raises nothing,
    whatever the two sensor queries did; the frequency field is absent
    exactly when the frequency reading failed and the temperature field
    exactly when the temperature reading failed, so a failed temperature
    next to a good frequency gives [Some f] and [None], and two failures
    give [None] and [None]. *)
Theorem sample_keeps_the_fields_apart (os : platform) (s : state)
    (load : float * float * float) (usage : float) :
  (∀ cmd e, check_output os cmd = Raise e → is_Exception e = true) →
  getloadavg os = Ret load →
  cpu_percent os = Ret usage →
  (1 <= time_time os - last_log_time s)%Q →
  log_sample os s
  = Ret ({| phase := phase s; intensity := intensity s;
            phase_start_time := phase_start_time s;
            last_log_time := time_time os; manager := manager s |},
         [Print (Sample (phase s) (intensity s)
                   (reading_of (frequency_reading os))
                   (reading_of (temperature_reading os)) usage load)])
  ∧ (∀ f e, frequency_reading os = Ret f → temperature_reading os = Raise e →
       reading_of (frequency_reading os) = Some f
       ∧ reading_of (temperature_reading os) = None)
  ∧ (∀ e e', frequency_reading os = Raise e → temperature_reading os = Raise e' →
       reading_of (frequency_reading os) = None
       ∧ reading_of (temperature_reading os) = None).
Proof.
  intros H Hload Husage Hdue. split; [|split].
  - unfold log_sample. apply Qle_bool_iff in Hdue. rewrite Hdue.
    rewrite (get_cpu_frequency_reading os (H _)),
            (get_cpu_temperature_reading os (H _)), Hload, Husage.
    reflexivity.
  - intros f e -> ->. split; reflexivity.
  - intros e e' -> ->. split; reflexivity.
Qed.

End SensorFacts.

Lemma sensors_never_raise_witness :
  (∀ cmd e, check_output (pi_without_temperature 0) cmd = Raise e →
            is_Exception e = true)
  ∧ get_cpu_frequency (pi_without_temperature 0) = Ret (Some (1500000000 # 1000000)%Q)
  ∧ get_cpu_temperature (pi_without_temperature 0) = Ret None.
Proof.
  assert (H : ∀ cmd e, check_output (pi_without_temperature 0) cmd = Raise e →
                       is_Exception e = true).
  { intros cmd e. cbn. repeat case_decide; intros [= <-]. reflexivity. }
  split; [exact H|].
  exact (@sensors_never_raise example_runtime (pi_without_temperature 0) H).
Defined.

Lemma sample_keeps_the_fields_apart_witness :
  (∀ cmd e, check_output (pi_without_temperature 1) cmd = Raise e →
            is_Exception e = true)
  ∧ getloadavg (pi_without_temperature 1) = Ret (4%Q, 2%Q, 1%Q)
  ∧ cpu_percent (pi_without_temperature 1) = Ret 100%Q
  ∧ (1 <= time_time (pi_without_temperature 1) - last_log_time start_of_main)%Q
  ∧ log_sample (pi_without_temperature 1) start_of_main
    = Ret (initial_state 0 1 main_manager,
           [Print (@Sample example_runtime 1 1 (Some (1500000000 # 1000000)%Q) None
                     100%Q (4%Q, 2%Q, 1%Q))]).
Proof.
  assert (H : ∀ cmd e, check_output (pi_without_temperature 1) cmd = Raise e →
                       is_Exception e = true).
  { intros cmd e. cbn. repeat case_decide; intros [= <-]. reflexivity. }
  assert (Hdue : (1 <= time_time (pi_without_temperature 1)
                       - last_log_time start_of_main)%Q)
    by (vm_compute; discriminate).
  split; [exact H|]. split; [reflexivity|]. split; [reflexivity|].
  split; [exact Hdue|].
  exact (proj1 (@sample_keeps_the_fields_apart example_runtime
                  (pi_without_temperature 1) start_of_main _ _ H
                  eq_refl eq_refl Hdue)).
Defined.

(** Without [vcgencmd] both fields are absent and the sample is printed all
    the same. *)
Example sample_without_sensors :
  log_sample (desktop_at 1) start_of_main
  = Ret (initial_state 0 1 main_manager,
         [Print (@Sample example_runtime 1 1 None None 100%Q (4%Q, 2%Q, 1%Q))]).
Proof. vm_compute. reflexivity. Qed.

(** ** Shutdown *)

Section ShutdownFacts.
Context `{rt : PyRuntime}.

Lemma spawn_NoDup (n : nat) (cp ci : cell) : NoDup (spawn n cp ci).
Proof.
  unfold spawn. apply NoDup_fmap_2_strong; [|apply NoDup_seq].
  intros i j _ _ [= ->]. reflexivity.
Qed.

Lemma spawn_length (n : nat) (cp ci : cell) : length (spawn n cp ci) = n.
Proof. unfold spawn. by rewrite length_map, length_seq. Qed.

Lemma main_interrupted (num_cores : nat) (t0 t1 : Q) (oss : list platform) :
  snd (control_loop main_shared_phase main_shared_intensity oss
         (initial_state t0 t1 main_manager)) = Raise KeyboardInterrupt →
  final (main num_cores t0 t1 oss) = Exit 0
  ∧ shutdown (main num_cores t0 t1 oss)
    = Print Stopping
      :: map Terminate (spawn num_cores main_shared_phase main_shared_intensity).
Proof.
  unfold main, main_shared_phase, main_shared_intensity, main_manager.
  cbn [manager_Value fst snd].
  destruct (control_loop _ _ oss _) as [trn r]. cbn [snd]. intros ->.
  split; reflexivity.
Qed.

(** C7: when the interrupt reaches the control loop, [main] prints the
    stopping line, terminates the processes it started, each of them once
    and in the order of their start, and exits with status 0. *)
Theorem interrupt_terminates_every_worker
    (num_cores : nat) (t0 t1 : Q) (oss : list platform) :
  snd (control_loop main_shared_phase main_shared_intensity oss
         (initial_state t0 t1 main_manager)) = Raise KeyboardInterrupt →
  let r := main num_cores t0 t1 oss in
  final r = Exit 0
  ∧ terminated (shutdown r) = started (startup r)
  ∧ NoDup (terminated (shutdown r))
  ∧ length (started (startup r)) = num_cores.
Proof.
  intros H r. subst r. destruct (main_interrupted num_cores t0 t1 oss H) as [Hf Hs].
  rewrite Hs, main_startup.
  change (started (Print ?l :: ?evs)) with (started evs).
  change (terminated (Print ?l :: ?evs)) with (terminated evs).
  rewrite started_map_Start, terminated_map_Terminate.
  split; [exact Hf|]. split; [reflexivity|].
  split; [apply spawn_NoDup | apply spawn_length].
Qed.

End ShutdownFacts.

Lemma interrupt_terminates_every_worker_witness :
  snd (control_loop main_shared_phase main_shared_intensity
         [desktop_at 0; interrupted_at (1 # 5)]
         (initial_state 0 0 main_manager)) = Raise KeyboardInterrupt
  ∧ final (main 4 0 0 [desktop_at 0; interrupted_at (1 # 5)]) = Exit 0.
Proof.
  assert (H : snd (control_loop main_shared_phase main_shared_intensity
                     [desktop_at 0; interrupted_at (1 # 5)]
                     (initial_state 0 0 main_manager)) = Raise KeyboardInterrupt)
    by reflexivity.
  split; [exact H|].
  exact (proj1 (@interrupt_terminates_every_worker example_runtime 4 0 0 _ H)).
Defined.

(** ** Sampling rate *)

Section SamplingFacts.
Context `{rt : PyRuntime}.

Lemma in_window_spec (a len t : Q) :
  in_window a len t = true ↔ (a <= t)%Q ∧ (t < a + len)%Q.
Proof.
  unfold in_window. rewrite andb_true_iff, negb_true_iff, Qle_bool_iff.
  split; intros [H1 H2]; split; try assumption.
  - apply Qnot_le_lt. intros H. apply Qle_bool_iff in H. congruence.
  - destruct (Qle_bool (a + len) t) eqn:E; [|reflexivity].
    apply Qle_bool_iff in E. lra.
Qed.

Lemma count_in_window_cons (a len t : Q) (ts : list Q) :
  count_in_window a len (t :: ts)
  = ((if in_window a len t then 1 else 0) + count_in_window a len ts)%nat.
Proof.
  unfold count_in_window. rewrite filter_cons.
  destruct (in_window a len t) eqn:E; case_decide; try congruence; reflexivity.
Qed.

Lemma count_in_window_later (a : Q) (ts : list Q) :
  Forall (fun t => (a + 1 <= t)%Q) ts → count_in_window a 1 ts = 0%nat.
Proof.
  induction 1 as [|t ts Ht _ IH]; [reflexivity|].
  rewrite count_in_window_cons, IH.
  destruct (in_window a 1 t) eqn:E; [|reflexivity].
  apply in_window_spec in E. lra.
Qed.

(** Every selected instant is at least one unit after [last]. *)
Lemma due_later (ts : list Q) :
  ∀ last, Forall (fun t => (last + 1 <= t)%Q) (due last ts).
Proof.
  induction ts as [|t ts IH]; intros last; cbn [due]; [constructor|].
  destruct (Qle_bool 1 (t - last)) eqn:E; [|apply IH].
  apply Qle_bool_iff in E. constructor; [lra|].
  eapply Forall_impl; [apply IH|]. cbn. intros u Hu. lra.
Qed.

Lemma due_at_most_one (ts : list Q) :
  ∀ last a, (count_in_window a 1 (due last ts) ≤ 1)%nat.
Proof.
  induction ts as [|t ts IH]; intros last a; cbn [due]; [cbn; lia|].
  destruct (Qle_bool 1 (t - last)) eqn:E; [|apply IH].
  rewrite count_in_window_cons. destruct (in_window a 1 t) eqn:W.
  - apply in_window_spec in W. rewrite count_in_window_later; [lia|].
    eapply Forall_impl; [apply due_later|]. cbn. intros u Hu. lra.
  - apply IH.
Qed.

Lemma due_at_least_one (d : Q) (ts : list Q) :
  ∀ prev last a,
    paced d prev ts → (last <= prev)%Q → (prev < last + 1)%Q → (last <= a)%Q →
    (∃ t, t ∈ ts ∧ (a + 1 <= t)%Q) →
    ∃ t, t ∈ due last ts ∧ (a <= t)%Q ∧ (t < a + 1 + d)%Q.
Proof.
  induction ts as [|t ts IH]; intros prev last a Hp Hl Hu Ha (u & Hin & Hlate).
  { apply elem_of_nil in Hin. contradiction. }
  destruct Hp as (Hp1 & Hp2 & Hp3). cbn [due].
  apply elem_of_cons in Hin.
  destruct (Qle_bool 1 (t - last)) eqn:E.
  - apply Qle_bool_iff in E. destruct (Qlt_le_dec t a) as [Hta|Hta].
    + destruct (IH t t a) as (v & Hv & Hv1 & Hv2); try assumption; try lra.
      { destruct Hin as [->|Hin]; [lra|]. exists u. split; assumption. }
      exists v. split; [apply elem_of_cons; by right|]. split; assumption.
    + exists t. split; [apply elem_of_cons; by left|]. split; lra.
  - assert (t - last < 1)%Q as E'.
    { apply Qnot_le_lt. intros H. apply Qle_bool_iff in H. congruence. }
    apply (IH t last a); try assumption; try lra.
    destruct Hin as [->|Hin]; [lra|]. exists u. split; assumption.
Qed.

Section Loop.
Variables shared_phase shared_intensity : cell.

Local Abbreviation turn := (loop_body shared_phase shared_intensity).
Local Abbreviation loop := (control_loop shared_phase shared_intensity).

Lemma escalate_keeps_last_log_time (now : Q) (s : state) :
  last_log_time (fst (escalate shared_phase shared_intensity now s))
  = last_log_time s
  ∧ existsb is_sample (snd (escalate shared_phase shared_intensity now s)) = false.
Proof.
  unfold escalate. destruct (Qle_bool phase_duration _); split; reflexivity.
Qed.

Lemma log_sample_ret (os : platform) (s s' : state) (evs : list event) :
  log_sample os s = Ret (s', evs) →
  last_log_time s'
  = (if Qle_bool 1 (time_time os - last_log_time s)
     then time_time os else last_log_time s)
  ∧ existsb is_sample evs = Qle_bool 1 (time_time os - last_log_time s).
Proof.
  unfold log_sample. destruct (Qle_bool 1 _).
  - destruct (get_cpu_frequency os); [|discriminate].
    destruct (get_cpu_temperature os); [|discriminate].
    destruct (getloadavg os); [|discriminate].
    destruct (cpu_percent os); [|discriminate].
    cbn. intros [= <- <-]. split; reflexivity.
  - intros [= <- <-]. split; reflexivity.
Qed.

(** A turn that leaves the loop running prints a sample exactly when line
    102 finds one due, and then moves [last_log_time] to its instant. *)
Lemma loop_body_ret (os : platform) (s s' : state) (evs : list event) :
  turn os s = (evs, Ret s') →
  last_log_time s'
  = (if Qle_bool 1 (time_time os - last_log_time s)
     then time_time os else last_log_time s)
  ∧ existsb is_sample evs = Qle_bool 1 (time_time os - last_log_time s).
Proof.
  unfold loop_body.
  destruct (escalate_keeps_last_log_time (time_time os) s) as [Hl He].
  destruct (escalate _ _ (time_time os) s) as [s1 ev1]. cbn [fst snd] in *.
  destruct (log_sample os s1) as [[s2 ev2]|e] eqn:E; [|intros [= _ ?]; discriminate].
  apply log_sample_ret in E as [E1 E2]. rewrite Hl in E1, E2.
  destruct (time_sleep os); intros H; inversion H; subst.
  split; [exact E1|].
  rewrite existsb_app, He, E2. reflexivity.
Qed.

Lemma control_loop_samples (oss : list platform) :
  ∀ s trn s', loop oss s = (trn, Ret s') →
    sample_times trn = due (last_log_time s) (map time_time oss).
Proof.
  induction oss as [|os oss IH]; intros s trn s'; cbn [control_loop].
  - intros [= <- _]. reflexivity.
  - destruct (turn os s) as [evs [s1|e]] eqn:E; [|intros [= _ ?]; discriminate].
    destruct (loop oss s1) as [trn1 r] eqn:E1. intros [= <- ->].
    apply loop_body_ret in E as [El Es]. apply IH in E1.
    unfold sample_times in *. rewrite filter_cons. cbn [snd map due].
    rewrite Es. destruct (Qle_bool 1 (time_time os - last_log_time s));
      case_decide; try congruence; rewrite El in E1; cbn [map fst];
      rewrite E1; reflexivity.
Qed.

(** C6, amended: while the loop runs, every window [[a, a + 1)] of one
    time unit holds at most one sample; and when consecutive turns are at
    most [d] apart, every window [[a, a + 1 + d)] that begins after the loop
    was entered and is followed by a turn at or after [a + 1] holds at
    least one.  (Two samples are at least one unit apart, so a window of
    one unit can hold none.) *)
Theorem sampling_rate_is_bounded
    (oss : list platform) (s s' : state) (trn : list (Q * list event)) (d : Q) :
  loop oss s = (trn, Ret s') →
  paced d (last_log_time s) (map time_time oss) →
  (∀ a, (count_in_window a 1 (sample_times trn) ≤ 1)%nat)
  ∧ (∀ a, (last_log_time s <= a)%Q →
          (∃ t, t ∈ map time_time oss ∧ (a + 1 <= t)%Q) →
          ∃ t, t ∈ sample_times trn ∧ (a <= t)%Q ∧ (t < a + 1 + d)%Q).
Proof.
  intros Hrun Hpaced. rewrite (control_loop_samples oss s trn s' Hrun). split.
  - intros a. apply due_at_most_one.
  - intros a Ha Hlater.
    apply (due_at_least_one d _ (last_log_time s)); try assumption; lra.
Qed.

End Loop.
End SamplingFacts.

Lemma undisturbed_samples :
  sample_times (fst (control_loop main_shared_phase main_shared_intensity
                       (map pi_at undisturbed_turns) start_of_main))
  = [1; 21 # 10]%Q.
Proof. vm_compute. reflexivity. Qed.

(** C6, as stated: in the undisturbed run the samples are printed at 1.0
    and at 2.1, so the window [[1.05, 2.05]] holds none although the loop
    turns through it. *)
Lemma a_unit_window_without_sample :
  ¬ a_sample_in_every_unit_window (last_log_time start_of_main)
      (map time_time (map pi_at undisturbed_turns))
      (sample_times (fst (control_loop main_shared_phase main_shared_intensity
                            (map pi_at undisturbed_turns) start_of_main))).
Proof.
  rewrite undisturbed_samples. intros H.
  destruct (H (21 # 20)%Q) as (t & Hin & H1 & H2).
  - vm_compute. discriminate.
  - exists (12 # 5)%Q. split; [|vm_compute; discriminate].
    cbn. repeat (apply elem_of_cons; first [by left | right]).
  - repeat (apply elem_of_cons in Hin as [->|Hin]; [lra|]).
    by apply elem_of_nil in Hin.
Qed.

Lemma sampling_rate_is_bounded_witness :
  control_loop main_shared_phase main_shared_intensity
    (map pi_at undisturbed_turns) start_of_main
  = (fst (control_loop main_shared_phase main_shared_intensity
            (map pi_at undisturbed_turns) start_of_main),
     Ret {| phase := 1; intensity := 1; phase_start_time := 0;
            last_log_time := 21 # 10; manager := main_manager |})
  ∧ paced (3 # 10) (last_log_time start_of_main)
      (map time_time (map pi_at undisturbed_turns))
  ∧ (count_in_window (21 # 20) 1
       (sample_times (fst (control_loop main_shared_phase main_shared_intensity
                             (map pi_at undisturbed_turns) start_of_main)))
     ≤ 1)%nat.
Proof.
  assert (Hrun : control_loop main_shared_phase main_shared_intensity
                   (map pi_at undisturbed_turns) start_of_main
                 = (fst (control_loop main_shared_phase main_shared_intensity
                           (map pi_at undisturbed_turns) start_of_main),
                    Ret {| phase := 1; intensity := 1; phase_start_time := 0;
                           last_log_time := 21 # 10; manager := main_manager |}))
    by (vm_compute; reflexivity).
  assert (Hpaced : paced (3 # 10) (last_log_time start_of_main)
                     (map time_time (map pi_at undisturbed_turns))).
  { cbn. repeat split; vm_compute; discriminate. }
  split; [exact Hrun|]. split; [exact Hpaced|].
  exact (proj1 (@sampling_rate_is_bounded example_runtime main_shared_phase
                  main_shared_intensity _ _ _ _ _ Hrun Hpaced) (21 # 20)%Q).
Defined.

(** ** The control loop as a run of ticks *)

Section LoopTicks.
Context `{rt : PyRuntime}.
Variables shared_phase shared_intensity : cell.

Local Abbreviation tick := (escalate shared_phase shared_intensity).

Lemma escalate_same (now : Q) (s s' : state) :
  same_escalation s s' →
  same_escalation (fst (tick now s)) (fst (tick now s'))
  ∧ snd (tick now s) = snd (tick now s').
Proof.
  intros (Hp & Hi & Ht & Hm). unfold escalate. rewrite Ht.
  destruct (Qle_bool phase_duration _); cbn [fst snd].
  - rewrite Hp, Hi, Hm. repeat split.
  - repeat split; assumption.
Qed.

Lemma log_sample_same (os : platform) (s s' : state) (evs : list event) :
  log_sample os s = Ret (s', evs) → same_escalation s s'.
Proof.
  unfold log_sample. destruct (Qle_bool 1 _).
  - destruct (get_cpu_frequency os); [|discriminate].
    destruct (get_cpu_temperature os); [|discriminate].
    destruct (getloadavg os); [|discriminate].
    destruct (cpu_percent os); [|discriminate].
    cbn. intros [= <- _]. repeat split.
  - intros [= <- _]. repeat split.
Qed.

(** While the loop runs, its phase, intensity and shared cells are those of
    the ticks at the instants of its turns: sampling touches none of
    them. *)
Lemma control_loop_ticks (oss : list platform) :
  ∀ s0 s trn s',
    same_escalation s0 s →
    control_loop shared_phase shared_intensity oss s = (trn, Ret s') →
    same_escalation
      (fst (ticks shared_phase shared_intensity (map time_time oss) s0)) s'.
Proof.
  induction oss as [|os oss IH]; intros s0 s trn s' Hsame; cbn [control_loop].
  - intros [= _ <-]. exact Hsame.
  - unfold loop_body.
    destruct (escalate_same (time_time os) s0 s Hsame) as [Hs _].
    cbn [map ticks].
    destruct (tick (time_time os) s0) as [u0 ev0].
    destruct (tick (time_time os) s) as [u ev]. cbn [fst] in Hs.
    destruct (log_sample os u) as [[u2 ev2]|e] eqn:E; [|discriminate].
    apply log_sample_same in E.
    destruct (time_sleep os); [|discriminate].
    destruct (control_loop _ _ oss u2) as [trn1 r] eqn:E1. intros [= _ ->].
    assert (Hs2 : same_escalation u0 u2).
    { destruct Hs as (?&?&?&?), E as (?&?&?&?). repeat split; congruence. }
    specialize (IH u0 u2 trn1 s' Hs2 E1).
    destruct (ticks _ _ (map time_time oss) u0) as [w evw]. exact IH.
Qed.

End LoopTicks.

(** Three and a half phase durations after the start, at a tick every 15
    time units: phase 4 and intensity 4. *)
Example three_and_a_half_durations :
  let s := fst (@ticks example_runtime main_shared_phase main_shared_intensity
                  [15; 30; 45; 60; 75; 90; 105]%Q start_of_main) in
  phase s = 4 ∧ intensity s = 4
  ∧ published main_shared_phase main_shared_intensity (manager s) = (Some 4, Some 4).
Proof. vm_compute. repeat split. Qed.

(** * Further properties *)

(** ** Workers and generators at the edges *)

Section WorkerEdges.
Context `{rt : PyRuntime}.

Lemma stress_worker_constant (n : nat) (phase intensity : value) (w : option work) :
  (∀ drawn, stress_worker_body drawn phase intensity = Ret w) →
  ∀ drawn, stress_worker n drawn phase intensity = Ret (replicate n w).
Proof.
  intros Hbody. induction n as [|n IH]; intros drawn; [reflexivity|].
  cbn [stress_worker]. rewrite Hbody. cbn [mbind result_bind].
  rewrite IH. reflexivity.
Qed.

Lemma stress_worker_body_phase (drawn : nat) (p : Z) (v : value) :
  stress_worker_body drawn (VInt p) v
  = if p =? 1 then Some <$> simple_arithmetic v
    else if p =? 2 then Some <$> complex_arithmetic v
    else if p =? 3 then Some <$> matrix_operations drawn v
    else if p =? 4 then Some <$> intensive_hashing v
    else Ret None.
Proof. reflexivity. Qed.

(** X1: for an intensity [k] of zero or less the two arithmetic loops do
    not run at all ([range] of a non-positive number is empty).
    [intensive_hashing] raises [OverflowError] when 10*k is below the
    smallest index, and otherwise builds an empty buffer and takes no
    digest.  [matrix_operations] raises [ValueError] for a negative
    intensity whose side numpy accepts as an index, because
    [np.random.rand] refuses a negative dimension, and multiplies two empty
    matrices for 0. *)
Theorem generators_at_non_positive_intensity (k : Z) (drawn : nat) :
  k ≤ 0 →
  0 ≤ maxsize →
  simple_arithmetic (VInt k) = Ret (SimpleArithmetic 0 0)
  ∧ complex_arithmetic (VInt k) = Ret (ComplexArithmetic 1 0)
  ∧ intensive_hashing (VInt k)
    = (if 10 * k <? - maxsize - 1 then Raise OverflowError
       else match bytes_refused 0 with
            | Some e => Raise e
            | None => Ret (IntensiveHashing [] None 0)
            end)
  ∧ (∀ e, array_refused (15 * k) (15 * k) = Some e →
          matrix_operations drawn (VInt k) = Raise e)
  ∧ (array_refused (15 * k) (15 * k) = None → k < 0 →
     matrix_operations drawn (VInt k) = Raise ValueError)
  ∧ (array_refused (15 * k) (15 * k) = None → k = 0 →
     ∃ a c product,
       matrix_operations drawn (VInt k) = Ret (MatrixOperations a c product)
       ∧ np_dot a c = Ret product
       ∧ nrows product = 0%nat ∧ ncols product = 0%nat).
Proof.
  intros Hk Hmax.
  assert (H500 : Z.to_nat (k * 500) = 0%nat) by lia.
  assert (H1000 : Z.to_nat (k * 1000) = 0%nat) by lia.
  assert (H20 : Z.to_nat (k * 20) = 0%nat) by lia.
  split; [|split; [|split; [|split; [|split]]]].
  - unfold simple_arithmetic, for_range. cbn [py_mul mbind result_bind].
    rewrite H500. reflexivity.
  - unfold complex_arithmetic, for_range. cbn [py_mul mbind result_bind].
    rewrite H1000. reflexivity.
  - unfold intensive_hashing, repeat_bytes, for_range.
    cbn [py_mul mbind result_bind].
    change (Z.of_nat (length (b "stress_data"))) with 11.
    replace (k * 10) with (10 * k) by lia. rewrite Z.max_r by lia.
    assert ((maxsize <? 10 * k) = false) as -> by (apply Z.ltb_ge; lia).
    rewrite orb_false_r. destruct (10 * k <? - maxsize - 1); [reflexivity|].
    assert ((maxsize <? 11 * 0) = false) as -> by (apply Z.ltb_ge; lia).
    change (11 * 0 =? 11) with false. change (11 * 0) with 0.
    destruct (bytes_refused 0); [reflexivity|].
    cbn [mbind result_bind]. rewrite H20. reflexivity.
  - intros e He. unfold matrix_operations, np_random_rand.
    cbn [py_mul mbind result_bind].
    replace (k * 15) with (15 * k) by lia. rewrite He. reflexivity.
  - intros Hok Hneg. unfold matrix_operations, np_random_rand.
    cbn [py_mul mbind result_bind].
    replace (k * 15) with (15 * k) by lia. rewrite Hok.
    assert (E : (15 * k <? 0) = true) by (apply Z.ltb_lt; lia).
    rewrite E. reflexivity.
  - intros Hok ->. destruct (matrix_operations_int drawn 0)
      as (a & c & p & _ & _ & Hd & E & _ & _ & _ & _ & Hr & Hc);
      [lia|exact Hok|].
    exists a, c, p. split; [exact E|]. split; [exact Hd|]. split; assumption.
Qed.

(** X2: a worker whose phase is an integer other than 1, 2, 3 and 4 takes
    no branch of the chain: its turns call no generator and raise nothing,
    whatever the intensity is. *)
Theorem worker_ignores_unknown_phase (n drawn : nat) (p : Z) (intensity : value) :
  p < 1 ∨ 4 < p →
  stress_worker n drawn (VInt p) intensity = Ret (replicate n None).
Proof.
  intros Hp. apply stress_worker_constant. intros d.
  rewrite stress_worker_body_phase.
  destruct (Z.eqb_spec p 1); [lia|]. destruct (Z.eqb_spec p 2); [lia|].
  destruct (Z.eqb_spec p 3); [lia|]. destruct (Z.eqb_spec p 4); [lia|].
  reflexivity.
Qed.

(** X3: a worker with an integer phase from 1 to 4 whose intensity is a
    proxy ends in its first turn with [TypeError]: every generator begins by
    multiplying the intensity, and a proxy cannot be multiplied. *)
Theorem worker_with_proxy_intensity_raises
    (n drawn : nat) (p : Z) (c : cell) :
  1 ≤ p ≤ 4 →
  stress_worker (S n) drawn (VInt p) (VProxy c) = Raise TypeError.
Proof.
  intros Hp. cbn [stress_worker]. rewrite stress_worker_body_phase.
  assert (p = 1 ∨ p = 2 ∨ p = 3 ∨ p = 4) as [->|[->|[->| ->]]] by lia;
    reflexivity.
Qed.

Lemma stress_worker_matrix (n : nat) (k : Z) :
  0 ≤ k →
  array_refused (15 * k) (15 * k) = None →
  ∀ drawn, ∃ ws,
    stress_worker n drawn (VInt 3) (VInt k) = Ret ws
    ∧ length ws = n
    ∧ Forall (fun w => ∃ a c product,
                w = Some (MatrixOperations a c product)
                ∧ np_dot a c = Ret product
                ∧ nrows product = Z.to_nat (15 * k)
                ∧ ncols product = Z.to_nat (15 * k)) ws.
Proof.
  intros Hk Hok. induction n as [|n IH]; intros drawn.
  - exists []. repeat split. constructor.
  - destruct (matrix_operations_int drawn k Hk Hok)
      as (a & c & p & _ & _ & Hd & E & _ & _ & _ & _ & Hr & Hc).
    cbn [stress_worker]. rewrite stress_worker_body_phase. cbn [Z.eqb Pos.eqb].
    rewrite E. cbn [fmap result_fmap mbind result_bind].
    destruct (IH (drawn + drawn_by (Some (MatrixOperations a c p)))%nat)
      as (ws & Ews & Hlen & Hall).
    rewrite Ews. cbn [mbind result_bind]. eexists. split; [reflexivity|].
    split; [cbn; by rewrite Hlen|]. constructor; [|exact Hall].
    exists a, c, p. repeat split; assumption.
Qed.

(** X4: a worker called with integers, a phase from 1 to 4 and a positive
    intensity [k] whose buffer (110*k bytes, at most [sys.maxsize]) and
    whose arrays (side 15*k) the runtime does not refuse, calls the
    generator of its phase in every turn, with [k], and never another one:
    its arguments are fixed when it starts. *)
Theorem integer_worker_repeats_its_generator (n drawn : nat) (k : Z) :
  0 < k →
  110 * k ≤ maxsize →
  bytes_refused (110 * k) = None →
  array_refused (15 * k) (15 * k) = None →
  stress_worker n drawn (VInt 1) (VInt k)
  = Ret (replicate n (Some (SimpleArithmetic (500 * k) (Z.to_nat (500 * k)))))
  ∧ stress_worker n drawn (VInt 2) (VInt k)
    = Ret (replicate n
             (Some (ComplexArithmetic (2 ^ (1000 * k)) (Z.to_nat (1000 * k)))))
  ∧ (∃ ws, stress_worker n drawn (VInt 3) (VInt k) = Ret ws
           ∧ length ws = n
           ∧ Forall (fun w => ∃ a c product,
                       w = Some (MatrixOperations a c product)
                       ∧ np_dot a c = Ret product
                       ∧ nrows product = Z.to_nat (15 * k)
                       ∧ ncols product = Z.to_nat (15 * k)) ws)
  ∧ stress_worker n drawn (VInt 4) (VInt k)
    = Ret (replicate n
             (Some (IntensiveHashing (repeated (b "stress_data") (10 * k))
                      (Some (sha256 (repeated (b "stress_data") (10 * k))))
                      (Z.to_nat (20 * k))))).
Proof.
  intros Hk Hmax Hbytes Harrays. split; [|split; [|split]].
  - apply stress_worker_constant. intros d. rewrite stress_worker_body_phase.
    cbn [Z.eqb Pos.eqb]. rewrite simple_arithmetic_int by lia. reflexivity.
  - apply stress_worker_constant. intros d. rewrite stress_worker_body_phase.
    cbn [Z.eqb Pos.eqb]. rewrite complex_arithmetic_int by lia. reflexivity.
  - apply stress_worker_matrix; [lia|exact Harrays].
  - apply stress_worker_constant. intros d. rewrite stress_worker_body_phase.
    cbn [Z.eqb Pos.eqb]. rewrite intensive_hashing_int by (lia || assumption).
    reflexivity.
Qed.

End WorkerEdges.

Lemma generators_at_non_positive_intensity_witness :
  -2 ≤ 0
  ∧ 0 ≤ @maxsize example_runtime
  ∧ @simple_arithmetic example_runtime (VInt (-2)) = Ret (SimpleArithmetic 0 0)
  ∧ @intensive_hashing example_runtime (VInt (-2))
    = Ret (IntensiveHashing [] None 0)
  ∧ @matrix_operations example_runtime 0 (VInt (-2)) = Raise ValueError.
Proof.
  assert (H0 : 0 ≤ @maxsize example_runtime) by (vm_compute; discriminate).
  pose proof (@generators_at_non_positive_intensity example_runtime (-2) 0
                ltac:(lia) H0) as (H1 & _ & H3 & _ & H5 & _).
  split; [lia|]. split; [exact H0|]. split; [exact H1|].
  split; [exact H3 | apply H5; [reflexivity | lia]].
Defined.

Lemma worker_ignores_unknown_phase_witness :
  (0 < 1 ∨ 4 < 0)
  ∧ @stress_worker example_runtime 3 0 (VInt 0) (VInt 7) = Ret [None; None; None].
Proof.
  assert (H : 0 < 1 ∨ 4 < 0) by (left; lia).
  split; [exact H|].
  exact (@worker_ignores_unknown_phase example_runtime 3 0 0 (VInt 7) H).
Defined.

Lemma worker_with_proxy_intensity_raises_witness :
  1 ≤ 3 ≤ 4
  ∧ @stress_worker example_runtime 1 0 (VInt 3) (VProxy 1%nat) = Raise TypeError.
Proof.
  assert (H : 1 ≤ 3 ≤ 4) by lia.
  split; [exact H|].
  exact (@worker_with_proxy_intensity_raises example_runtime 0 0 3 1%nat H).
Defined.

Lemma integer_worker_repeats_its_generator_witness :
  0 < 1
  ∧ 110 * 1 ≤ @maxsize example_runtime
  ∧ @bytes_refused example_runtime (110 * 1) = None
  ∧ @array_refused example_runtime (15 * 1) (15 * 1) = None
  ∧ @stress_worker example_runtime 2 0 (VInt 1) (VInt 1)
    = Ret (replicate 2 (Some (SimpleArithmetic (500 * 1) (Z.to_nat (500 * 1)))))
  ∧ @stress_worker example_runtime 2 0 (VInt 4) (VInt 1)
    = Ret (replicate 2
             (Some (IntensiveHashing (repeated (b "stress_data") (10 * 1))
                      (Some (@sha256 example_runtime
                               (repeated (b "stress_data") (10 * 1))))
                      (Z.to_nat (20 * 1))))).
Proof.
  assert (H : 0 < 1) by lia.
  assert (Hmax : 110 * 1 ≤ @maxsize example_runtime) by (vm_compute; discriminate).
  pose proof (@integer_worker_repeats_its_generator example_runtime 2 0 1
                H Hmax eq_refl eq_refl) as (H1 & _ & _ & H4).
  split; [exact H|]. split; [exact Hmax|]. split; [reflexivity|].
  split; [reflexivity|]. split; [exact H1 | exact H4].
Defined.

(** ** What the sensors read *)

Section SensorParsing.
Context `{rt : PyRuntime}.

Lemma split_unfold (sep : codepoint) (s : str) :
  split sep s
  = before sep s :: match after sep s with
                    | Some rest => split sep rest
                    | None => []
                    end.
Proof.
  induction s as [|c s IH]; [reflexivity|]. cbn [split before after].
  destruct (c =? sep)%N; [reflexivity|]. rewrite IH. reflexivity.
Qed.

Lemma index_split_0 (sep : codepoint) (s : str) :
  index (split sep s) 0 = Ret (before sep s).
Proof. rewrite split_unfold. reflexivity. Qed.

Lemma index_split_1 (sep : codepoint) (s : str) :
  index (split sep s) 1
  = match after sep s with
    | Some rest => Ret (before sep rest)
    | None => Raise IndexError
    end.
Proof.
  rewrite split_unfold. destruct (after sep s) as [rest|]; [|reflexivity].
  rewrite split_unfold. reflexivity.
Qed.

(** X5: when the clock query prints text, [get_cpu_frequency] returns
    [None] if the text holds no equals sign; otherwise it reads the integer
    written between the first equals sign and the next one (or the end),
    divides it by 1,000,000, and returns [None] if that is no integer or
    the quotient does not fit a float. *)
Theorem frequency_is_read_after_the_equals_sign
    (os : platform) (out : bytes) (text : str) :
  check_output os measure_clock = Ret out →
  decode_utf8 out = Ret text →
  get_cpu_frequency os
  = Ret (rest ← after equals_sign text;
         n ← py_int (before equals_sign rest);
         py_truediv n 1000000).
Proof.
  intros Hout Htext. unfold get_cpu_frequency, frequency_reading.
  rewrite Hout. cbn [mbind result_bind]. rewrite Htext. cbn [mbind result_bind].
  rewrite index_split_1. destruct (after equals_sign text) as [rest|];
    [|reflexivity].
  cbn [mbind result_bind option_bind].
  destruct (py_int (before equals_sign rest)) as [n|]; [|reflexivity].
  cbn [or_raise mbind result_bind option_bind].
  destruct (py_truediv n 1000000); reflexivity.
Qed.

(** X6: when the temperature query prints text, [get_cpu_temperature]
    returns [None] if the text holds no equals sign; otherwise it reads the
    number written after the first equals sign, up to the first apostrophe
    or the next equals sign or the end, whichever comes first; without an
    apostrophe the number is still read. *)
Theorem temperature_is_read_up_to_the_apostrophe
    (os : platform) (out : bytes) (text : str) :
  check_output os measure_temp = Ret out →
  decode_utf8 out = Ret text →
  get_cpu_temperature os
  = Ret (rest ← after equals_sign text;
         py_float (before apostrophe (before equals_sign rest))).
Proof.
  intros Hout Htext. unfold get_cpu_temperature, temperature_reading.
  rewrite Hout. cbn [mbind result_bind]. rewrite Htext. cbn [mbind result_bind].
  rewrite index_split_1. destruct (after equals_sign text) as [rest|];
    [|reflexivity].
  cbn [mbind result_bind option_bind]. rewrite index_split_0.
  cbn [mbind result_bind].
  destruct (py_float (before apostrophe (before equals_sign rest))); reflexivity.
Qed.

End SensorParsing.

Lemma frequency_is_read_after_the_equals_sign_witness :
  check_output (pi_at 0) measure_clock = Ret clock_output
  ∧ decode_utf8 clock_output = Ret (map Byte.to_N clock_output)
  ∧ get_cpu_frequency (pi_at 0) = Ret (Some (1500000000 # 1000000)%Q).
Proof.
  assert (H1 : check_output (pi_at 0) measure_clock = Ret clock_output)
    by reflexivity.
  assert (H2 : decode_utf8 clock_output = Ret (map Byte.to_N clock_output))
    by (vm_compute; reflexivity).
  split; [exact H1|]. split; [exact H2|].
  exact (@frequency_is_read_after_the_equals_sign example_runtime _ _ _ H1 H2).
Defined.

Lemma temperature_is_read_up_to_the_apostrophe_witness :
  check_output (pi_without_temperature 0) measure_temp = Ret vchi_output
  ∧ decode_utf8 vchi_output = Ret (map Byte.to_N vchi_output)
  ∧ get_cpu_temperature (pi_without_temperature 0) = Ret None.
Proof.
  assert (H1 : check_output (pi_without_temperature 0) measure_temp
               = Ret vchi_output) by reflexivity.
  assert (H2 : decode_utf8 vchi_output = Ret (map Byte.to_N vchi_output))
    by (vm_compute; reflexivity).
  split; [exact H1|]. split; [exact H2|].
  exact (@temperature_is_read_up_to_the_apostrophe example_runtime _ _ _ H1 H2).
Defined.

(** ** Escalation over time *)

Section EscalationOverTime.
Context `{rt : PyRuntime}.
Variables shared_phase shared_intensity : cell.

Local Abbreviation tick := (escalate shared_phase shared_intensity).
Local Abbreviation run := (ticks shared_phase shared_intensity).
Local Abbreviation shared := (published shared_phase shared_intensity).

Lemma escalate_in_step (now : Q) (s : state) :
  shared_phase ≠ shared_intensity →
  shared (manager s) = (Some (phase s), Some (intensity s)) →
  shared (manager (fst (tick now s)))
  = (Some (phase (fst (tick now s))), Some (intensity (fst (tick now s))))
  ∧ ∀ c, c ≠ shared_phase → c ≠ shared_intensity →
         manager (fst (tick now s)) !! c = manager s !! c.
Proof.
  intros Hne Hs.
  destruct (Qlt_le_dec (now - phase_start_time s) phase_duration) as [H|H].
  - rewrite (escalate_early _ _ now s H). cbn [fst]. split; [exact Hs|reflexivity].
  - rewrite (escalate_late _ _ now s H). cbn [fst phase intensity manager].
    unfold published. split.
    + f_equal.
      * rewrite lookup_insert_ne by congruence. apply lookup_insert_eq.
      * apply lookup_insert_eq.
    + intros c H1 H2. by rewrite !lookup_insert_ne by congruence.
Qed.

(** X7: when the two shared values are distinct cells that hold the phase
    and the intensity of [main], they still do after any number of ticks:
    every escalation writes both, and no tick writes any other cell of the
    manager. *)
Theorem shared_cells_follow_main (nows : list Q) (s : state) :
  shared_phase ≠ shared_intensity →
  shared (manager s) = (Some (phase s), Some (intensity s)) →
  shared (manager (fst (run nows s)))
  = (Some (phase (fst (run nows s))), Some (intensity (fst (run nows s))))
  ∧ ∀ c, c ≠ shared_phase → c ≠ shared_intensity →
         manager (fst (run nows s)) !! c = manager s !! c.
Proof.
  intros Hne. revert s. induction nows as [|now nows IH]; intros s Hs.
  - cbn [ticks fst]. split; [exact Hs|reflexivity].
  - rewrite ticks_cons. cbn [fst].
    destruct (escalate_in_step now s Hne Hs) as [H1 H2].
    destruct (IH _ H1) as [H3 H4]. split; [exact H3|].
    intros c Hc1 Hc2. rewrite H4, H2 by assumption. reflexivity.
Qed.

Lemma escalate_needs_time (now T : Q) (s : state) :
  (now <= T)%Q → (phase_start_time s <= T)%Q →
  (phase_start_time (fst (tick now s)) <= T)%Q
  ∧ (phase_start_time s
     + 30 * inject_Z (intensity (fst (tick now s)) - intensity s)
     <= phase_start_time (fst (tick now s)))%Q.
Proof.
  intros Hnow Hs.
  destruct (Qlt_le_dec (now - phase_start_time s) phase_duration) as [H|H].
  - rewrite (escalate_early _ _ now s H). cbn [fst]. split; [exact Hs|].
    rewrite Z.sub_diag. change (inject_Z 0) with 0%Q. lra.
  - rewrite (escalate_late _ _ now s H). cbn [fst phase_start_time intensity].
    split; [exact Hnow|].
    replace (intensity s + 1 - intensity s) with 1 by lia.
    change (inject_Z 1) with 1%Q. unfold phase_duration in H. lra.
Qed.

(** X8: escalations take time.  When the timer was started at a clock
    reading of at least 30 and every tick of a run happens at or before
    [T], the intensity has grown by at most (T - phase_start_time) / 30
    over the run: each escalation needs 30 time units since the previous
    one.  (From a reading of 30 on, the difference of two clock readings
    that is below 30 is a binary64 number, so the comparison of line 91
    decides as it does on the exact difference.) *)
Theorem escalations_take_time (nows : list Q) (T : Q) (s : state) :
  (30 <= phase_start_time s)%Q →
  Forall (fun now => (now <= T)%Q) nows →
  (phase_start_time s <= T)%Q →
  (30 * inject_Z (intensity (fst (run nows s)) - intensity s)
   <= T - phase_start_time s)%Q.
Proof.
  intros _ Hall. revert s.
  enough (∀ s, (phase_start_time s <= T)%Q →
            (phase_start_time (fst (run nows s)) <= T)%Q
            ∧ (phase_start_time s
               + 30 * inject_Z (intensity (fst (run nows s)) - intensity s)
               <= phase_start_time (fst (run nows s)))%Q) as H.
  { intros s Hs. destruct (H s Hs). lra. }
  induction Hall as [|now nows Hnow _ IH]; intros s Hs.
  - cbn [ticks fst]. split; [exact Hs|].
    rewrite Z.sub_diag. change (inject_Z 0) with 0%Q. lra.
  - rewrite ticks_cons. cbn [fst].
    destruct (escalate_needs_time now T s Hnow Hs) as [H1 H2].
    destruct (IH _ H1) as [H3 H4]. split; [exact H3|].
    set (s1 := fst (tick now s)) in *. set (s2 := fst (run nows s1)) in *.
    assert (E : (inject_Z (intensity s2 - intensity s)
                 == inject_Z (intensity s2 - intensity s1)
                    + inject_Z (intensity s1 - intensity s))%Q).
    { rewrite <- inject_Z_plus. f_equiv. lia. }
    rewrite E. lra.
Qed.

End EscalationOverTime.

Lemma shared_cells_follow_main_witness :
  main_shared_phase ≠ main_shared_intensity
  ∧ published main_shared_phase main_shared_intensity (manager start_of_main)
    = (Some (phase start_of_main), Some (intensity start_of_main))
  ∧ published main_shared_phase main_shared_intensity
      (manager (fst (@ticks example_runtime main_shared_phase
                       main_shared_intensity [30; 45; 60]%Q start_of_main)))
    = (Some 3, Some 3).
Proof.
  assert (H1 : main_shared_phase ≠ main_shared_intensity)
    by (vm_compute; discriminate).
  assert (H2 : published main_shared_phase main_shared_intensity
                 (manager start_of_main)
               = (Some (phase start_of_main), Some (intensity start_of_main)))
    by (vm_compute; reflexivity).
  split; [exact H1|]. split; [exact H2|].
  exact (proj1 (@shared_cells_follow_main example_runtime main_shared_phase
                  main_shared_intensity [30; 45; 60]%Q start_of_main H1 H2)).
Defined.

Lemma escalations_take_time_witness :
  (30 <= phase_start_time (initial_state 1000 1000 main_manager))%Q
  ∧ Forall (fun now => (now <= 1100)%Q) [1030; 1045; 1060; 1100]%Q
  ∧ (phase_start_time (initial_state 1000 1000 main_manager) <= 1100)%Q
  ∧ (30 * inject_Z
            (intensity (fst (@ticks example_runtime main_shared_phase
                               main_shared_intensity
                               [1030; 1045; 1060; 1100]%Q
                               (initial_state 1000 1000 main_manager)))
             - intensity (initial_state 1000 1000 main_manager))
     <= 1100 - phase_start_time (initial_state 1000 1000 main_manager))%Q.
Proof.
  assert (H0 : (30 <= phase_start_time (initial_state 1000 1000 main_manager))%Q)
    by (vm_compute; discriminate).
  assert (H1 : Forall (fun now => (now <= 1100)%Q) [1030; 1045; 1060; 1100]%Q)
    by (repeat constructor; vm_compute; discriminate).
  assert (H2 : (phase_start_time (initial_state 1000 1000 main_manager) <= 1100)%Q)
    by (vm_compute; discriminate).
  split; [exact H0|]. split; [exact H1|]. split; [exact H2|].
  exact (@escalations_take_time example_runtime main_shared_phase
           main_shared_intensity _ _ _ H0 H1 H2).
Defined.

(** ** Exceptions in the control loop *)

Section LoopExceptions.
Context `{rt : PyRuntime}.

Section Loop.
Variables shared_phase shared_intensity : cell.

Local Abbreviation tick := (escalate shared_phase shared_intensity).
Local Abbreviation turn := (loop_body shared_phase shared_intensity).
Local Abbreviation loop := (control_loop shared_phase shared_intensity).

Lemma control_loop_cons (os : platform) (oss : list platform) (s : state) :
  loop (os :: oss) s
  = match turn os s with
    | (evs, Raise e) => ([(time_time os, evs)], Raise e)
    | (evs, Ret s') =>
      ((time_time os, evs) :: fst (loop oss s'), snd (loop oss s'))
    end.
Proof.
  cbn [control_loop]. destruct (turn os s) as [evs [s'|e]]; [|reflexivity].
  destruct (loop oss s'). reflexivity.
Qed.

(** Running on: a longer list of turns continues from the state the shorter
    one left, unless the shorter one ended in an exception. *)
Lemma control_loop_app (oss1 oss2 : list platform) :
  ∀ s, loop (oss1 ++ oss2) s
       = match loop oss1 s with
         | (trn, Ret s1) => (trn ++ fst (loop oss2 s1), snd (loop oss2 s1))
         | (trn, Raise e) => (trn, Raise e)
         end.
Proof.
  induction oss1 as [|os oss1 IH]; intros s.
  - cbn [app control_loop]. by destruct (loop oss2 s).
  - rewrite <- app_comm_cons, !control_loop_cons.
    destruct (turn os s) as [evs [s'|e]]; [|reflexivity].
    rewrite IH. destruct (loop oss1 s') as [trn [s1|e]]; reflexivity.
Qed.

Lemma loop_body_raises_in_log (os : platform) (s : state) (e : exn) :
  log_sample os (fst (tick (time_time os) s)) = Raise e →
  turn os s = (snd (tick (time_time os) s), Raise e).
Proof.
  unfold loop_body. destruct (tick (time_time os) s) as [s1 ev1]. cbn [fst snd].
  intros ->. reflexivity.
Qed.

Lemma log_sample_due (os : platform) (now : Q) (s : state) :
  (1 <= time_time os - last_log_time s)%Q →
  Qle_bool 1 (time_time os - last_log_time (fst (tick now s))) = true.
Proof.
  intros H. rewrite (proj1 (escalate_keeps_last_log_time _ _ now s)).
  by apply Qle_bool_iff.
Qed.

(** X9: a sample printed by a turn reports the phase and the intensity as
    they are after the escalation of that same turn, which are those of the
    state the turn ends in: the escalation comes first. *)
Theorem sample_reports_the_state_after_escalation
    (os : platform) (s s' : state) (evs : list event)
    (p i : Z) (f t : option float) (u : float) (l : float * float * float) :
  turn os s = (evs, Ret s') →
  Print (Sample p i f t u l) ∈ evs →
  p = phase s' ∧ i = intensity s'
  ∧ phase s' = phase (fst (tick (time_time os) s))
  ∧ intensity s' = intensity (fst (tick (time_time os) s)).
Proof.
  unfold loop_body.
  pose proof (proj2 (escalate_keeps_last_log_time shared_phase shared_intensity
                       (time_time os) s)) as Hno.
  destruct (tick (time_time os) s) as [s1 ev1]. cbn [fst snd] in *.
  destruct (log_sample os s1) as [[s2 ev2]|e] eqn:E; [|discriminate].
  destruct (time_sleep os); [|discriminate]. intros [= <- <-] Hin.
  apply elem_of_app in Hin as [Hin|Hin].
  - exfalso. assert (existsb is_sample ev1 = true); [|congruence].
    apply existsb_exists. exists (Print (Sample p i f t u l)).
    split; [by apply list_elem_of_In|reflexivity].
  - revert E Hin. unfold log_sample. destruct (Qle_bool 1 _).
    + destruct (get_cpu_frequency os); [|discriminate].
      destruct (get_cpu_temperature os); [|discriminate].
      destruct (getloadavg os); [|discriminate].
      destruct (cpu_percent os); [|discriminate].
      cbn. intros [= <- <-] Hin. apply list_elem_of_singleton in Hin.
      injection Hin as -> -> _ _ _ _. repeat split.
    + intros [= <- <-] Hin. by apply elem_of_nil in Hin.
Qed.

(** X10: when the loop ends in an exception, exactly one turn raised it:
    the turns before it all completed, the trace ends with the events the
    failing turn had emitted, and no later turn ran. *)
Theorem exception_comes_from_the_last_turn (oss : list platform) :
  ∀ (s : state) (trn : list (Q * list event)) (e : exn),
    loop oss s = (trn, Raise e) →
    ∃ before_it os later done s1 evs,
      oss = before_it ++ os :: later
      ∧ loop before_it s = (done, Ret s1)
      ∧ turn os s1 = (evs, Raise e)
      ∧ trn = done ++ [(time_time os, evs)]
      ∧ length done = length before_it.
Proof.
  induction oss as [|os oss IH]; intros s trn e; [discriminate|].
  rewrite control_loop_cons. destruct (turn os s) as [evs [s'|e']] eqn:E.
  - destruct (loop oss s') as [trn' r] eqn:E'. cbn [fst snd]. intros [= <- ->].
    destruct (IH _ _ _ E') as (pre & os1 & later & done & s1 & evs1
                               & -> & Hpre & Hturn & -> & Hlen).
    exists (os :: pre), os1, later, ((time_time os, evs) :: done), s1, evs1.
    repeat split; try assumption.
    + rewrite control_loop_cons, E, Hpre. reflexivity.
    + cbn. by rewrite Hlen.
  - intros [= <- <-]. exists [], os, oss, [], s, evs. repeat split. exact E.
Qed.

End Loop.

Lemma main_fields (num_cores : nat) (t0 t1 : Q) (oss : list platform) :
  let r := control_loop main_shared_phase main_shared_intensity oss
             (initial_state t0 t1 main_manager) in
  turns (main num_cores t0 t1 oss) = fst r
  ∧ final (main num_cores t0 t1 oss)
    = match snd r with
      | Ret s => Running s
      | Raise KeyboardInterrupt => Exit 0
      | Raise e => Uncaught e
      end
  ∧ shutdown (main num_cores t0 t1 oss)
    = match snd r with
      | Raise KeyboardInterrupt =>
        Print Stopping
        :: map Terminate (spawn num_cores main_shared_phase main_shared_intensity)
      | _ => []
      end.
Proof.
  unfold main, main_shared_phase, main_shared_intensity, main_manager.
  cbn [manager_Value fst snd].
  destruct (control_loop _ _ oss _) as [trn [s|e]]; [|destruct e];
    repeat split.
Qed.

(** X11: an interrupt that arrives while the clock query of a due sample
    is running is not swallowed by the sensor: it leaves the loop without
    a sample for that turn, and [main] terminates every worker it started
    and exits with status 0. *)
Theorem interrupt_during_a_query_stops_the_harness
    (num_cores : nat) (t0 t1 : Q) (before_it later : list platform)
    (os : platform) (done : list (Q * list event)) (s : state) :
  control_loop main_shared_phase main_shared_intensity before_it
    (initial_state t0 t1 main_manager) = (done, Ret s) →
  (1 <= time_time os - last_log_time s)%Q →
  check_output os measure_clock = Raise KeyboardInterrupt →
  let r := main num_cores t0 t1 (before_it ++ os :: later) in
  final r = Exit 0
  ∧ terminated (shutdown r) = started (startup r)
  ∧ turns r
    = done ++ [(time_time os,
                snd (escalate main_shared_phase main_shared_intensity
                       (time_time os) s))]
  ∧ sample_times (turns r) = sample_times done.
Proof.
  intros Hdone Hdue Hint r. subst r.
  assert (Hlog : log_sample os (fst (escalate main_shared_phase
                                       main_shared_intensity (time_time os) s))
                 = Raise KeyboardInterrupt).
  { unfold log_sample. rewrite (log_sample_due _ _ os _ s Hdue).
    rewrite (get_cpu_frequency_interrupted os Hint). reflexivity. }
  assert (Hrun : control_loop main_shared_phase main_shared_intensity
                   (before_it ++ os :: later) (initial_state t0 t1 main_manager)
                 = (done ++ [(time_time os,
                              snd (escalate main_shared_phase main_shared_intensity
                                     (time_time os) s))],
                    Raise KeyboardInterrupt)).
  { rewrite control_loop_app, Hdone, control_loop_cons.
    rewrite (loop_body_raises_in_log _ _ os s _ Hlog). reflexivity. }
  destruct (main_fields num_cores t0 t1 (before_it ++ os :: later))
    as (Ht & Hf & Hs).
  rewrite Hrun in Ht, Hf, Hs. cbn [fst snd] in *.
  rewrite Ht, Hf, Hs, main_startup.
  change (started (Print ?l :: ?evs)) with (started evs).
  change (terminated (Print ?l :: ?evs)) with (terminated evs).
  rewrite started_map_Start, terminated_map_Terminate.
  repeat split. unfold sample_times. rewrite filter_app, filter_cons.
  cbn [snd]. rewrite (proj2 (escalate_keeps_last_log_time _ _ _ _)).
  case_decide; [discriminate|]. by rewrite filter_nil, app_nil_r.
Qed.

(** X12: a failure of [os.getloadavg] in a turn where a sample is due is
    caught nowhere: unless it is an interrupt, [main] ends with that
    exception, prints no sample and no stopping line, and terminates no
    worker. *)
Theorem load_average_failure_is_not_handled
    (num_cores : nat) (t0 t1 : Q) (before_it later : list platform)
    (os : platform) (done : list (Q * list event)) (s : state) (e : exn) :
  control_loop main_shared_phase main_shared_intensity before_it
    (initial_state t0 t1 main_manager) = (done, Ret s) →
  (1 <= time_time os - last_log_time s)%Q →
  (∀ cmd e', check_output os cmd = Raise e' → is_Exception e' = true) →
  getloadavg os = Raise e →
  e ≠ KeyboardInterrupt →
  let r := main num_cores t0 t1 (before_it ++ os :: later) in
  final r = Uncaught e
  ∧ shutdown r = []
  ∧ length (started (startup r)) = num_cores
  ∧ sample_times (turns r) = sample_times done.
Proof.
  intros Hdone Hdue Hsens Hload Hne r. subst r.
  assert (Hlog : log_sample os (fst (escalate main_shared_phase
                                       main_shared_intensity (time_time os) s))
                 = Raise e).
  { unfold log_sample. rewrite (log_sample_due _ _ os _ s Hdue).
    rewrite (get_cpu_frequency_reading os (Hsens _)),
            (get_cpu_temperature_reading os (Hsens _)), Hload. reflexivity. }
  assert (Hrun : control_loop main_shared_phase main_shared_intensity
                   (before_it ++ os :: later) (initial_state t0 t1 main_manager)
                 = (done ++ [(time_time os,
                              snd (escalate main_shared_phase main_shared_intensity
                                     (time_time os) s))],
                    Raise e)).
  { rewrite control_loop_app, Hdone, control_loop_cons.
    rewrite (loop_body_raises_in_log _ _ os s _ Hlog). reflexivity. }
  destruct (main_fields num_cores t0 t1 (before_it ++ os :: later))
    as (Ht & Hf & Hs).
  rewrite Hrun in Ht, Hf, Hs. cbn [fst snd] in *.
  rewrite Ht, Hf, Hs, main_startup.
  change (started (Print ?l :: ?evs)) with (started evs).
  rewrite started_map_Start, spawn_length.
  split; [by destruct e|]. split; [by destruct e|]. split; [reflexivity|].
  unfold sample_times. rewrite filter_app, filter_cons.
  cbn [snd]. rewrite (proj2 (escalate_keeps_last_log_time _ _ _ _)).
  case_decide; [discriminate|]. by rewrite filter_nil, app_nil_r.
Qed.

End LoopExceptions.

Lemma sample_reports_the_state_after_escalation_witness :
  loop_body main_shared_phase main_shared_intensity (pi_at 30) start_of_main
  = (fst (loop_body main_shared_phase main_shared_intensity (pi_at 30)
            start_of_main),
     Ret {| phase := 2; intensity := 2; phase_start_time := 30;
            last_log_time := 30;
            manager := <[main_shared_intensity := 2]>
                         (<[main_shared_phase := 2]> main_manager) |})
  ∧ Print (@Sample example_runtime 2 2 (Some (1500000000 # 1000000)%Q)
             (Some (483 # 10)%Q) (100 # 1)%Q idle_load)
    ∈ fst (loop_body main_shared_phase main_shared_intensity (pi_at 30)
             start_of_main)
  ∧ 2 = phase (fst (@escalate example_runtime main_shared_phase
                      main_shared_intensity 30 start_of_main)).
Proof.
  assert (H1 : loop_body main_shared_phase main_shared_intensity (pi_at 30)
                 start_of_main
               = (fst (loop_body main_shared_phase main_shared_intensity (pi_at 30)
                         start_of_main),
                  Ret {| phase := 2; intensity := 2; phase_start_time := 30;
                         last_log_time := 30;
                         manager := <[main_shared_intensity := 2]>
                                      (<[main_shared_phase := 2]> main_manager) |}))
    by (vm_compute; reflexivity).
  assert (H2 : Print (@Sample example_runtime 2 2 (Some (1500000000 # 1000000)%Q)
                        (Some (483 # 10)%Q) (100 # 1)%Q idle_load)
               ∈ fst (loop_body main_shared_phase main_shared_intensity (pi_at 30)
                        start_of_main)).
  { apply list_elem_of_In. vm_compute. do 3 right. left. reflexivity. }
  split; [exact H1|]. split; [exact H2|].
  destruct (@sample_reports_the_state_after_escalation example_runtime
              main_shared_phase main_shared_intensity _ _ _ _ _ _ _ _ _ _ H1 H2)
    as (_ & _ & H & _).
  exact H.
Defined.

Lemma exception_comes_from_the_last_turn_witness :
  control_loop main_shared_phase main_shared_intensity
    [desktop_at 0; interrupted_at (1 # 5); desktop_at (2 # 5)] start_of_main
  = ([(0%Q, []); ((1 # 5)%Q, [])], Raise KeyboardInterrupt)
  ∧ ∃ before_it os later done s1 evs,
      [desktop_at 0; interrupted_at (1 # 5); desktop_at (2 # 5)]
      = before_it ++ os :: later
      ∧ control_loop main_shared_phase main_shared_intensity before_it
          start_of_main = (done, Ret s1)
      ∧ loop_body main_shared_phase main_shared_intensity os s1
        = (evs, Raise KeyboardInterrupt)
      ∧ [(0%Q, []); ((1 # 5)%Q, [])] = done ++ [(time_time os, evs)]
      ∧ length done = length before_it.
Proof.
  assert (H : control_loop main_shared_phase main_shared_intensity
                [desktop_at 0; interrupted_at (1 # 5); desktop_at (2 # 5)]
                start_of_main
              = ([(0%Q, []); ((1 # 5)%Q, [])], Raise KeyboardInterrupt))
    by reflexivity.
  split; [exact H|].
  exact (@exception_comes_from_the_last_turn example_runtime main_shared_phase
           main_shared_intensity _ _ _ _ H).
Defined.

Lemma interrupt_during_a_query_stops_the_harness_witness :
  control_loop main_shared_phase main_shared_intensity [desktop_at 0]
    (initial_state 0 0 main_manager)
  = ([(0%Q, [])], Ret (initial_state 0 0 main_manager))
  ∧ (1 <= time_time (query_interrupted_at 1)
          - last_log_time (initial_state 0 0 main_manager))%Q
  ∧ check_output (query_interrupted_at 1) measure_clock = Raise KeyboardInterrupt
  ∧ final (main 4 0 0 ([desktop_at 0] ++ query_interrupted_at 1 :: [desktop_at 2]))
    = Exit 0.
Proof.
  assert (H1 : control_loop main_shared_phase main_shared_intensity [desktop_at 0]
                 (initial_state 0 0 main_manager)
               = ([(0%Q, [])], Ret (initial_state 0 0 main_manager)))
    by reflexivity.
  assert (H2 : (1 <= time_time (query_interrupted_at 1)
                    - last_log_time (initial_state 0 0 main_manager))%Q)
    by (vm_compute; discriminate).
  split; [exact H1|]. split; [exact H2|]. split; [reflexivity|].
  exact (proj1 (@interrupt_during_a_query_stops_the_harness example_runtime
                  4 0 0 _ [desktop_at 2] _ _ _ H1 H2 eq_refl)).
Defined.

Lemma load_average_failure_is_not_handled_witness :
  control_loop main_shared_phase main_shared_intensity [desktop_at 0]
    (initial_state 0 0 main_manager)
  = ([(0%Q, [])], Ret (initial_state 0 0 main_manager))
  ∧ (1 <= time_time (load_unavailable_at 1)
          - last_log_time (initial_state 0 0 main_manager))%Q
  ∧ (∀ cmd e', check_output (load_unavailable_at 1) cmd = Raise e' →
               is_Exception e' = true)
  ∧ getloadavg (load_unavailable_at 1) = Raise OSError
  ∧ OSError ≠ KeyboardInterrupt
  ∧ final (main 4 0 0 ([desktop_at 0] ++ load_unavailable_at 1 :: [desktop_at 2]))
    = Uncaught OSError.
Proof.
  assert (H1 : control_loop main_shared_phase main_shared_intensity [desktop_at 0]
                 (initial_state 0 0 main_manager)
               = ([(0%Q, [])], Ret (initial_state 0 0 main_manager)))
    by reflexivity.
  assert (H2 : (1 <= time_time (load_unavailable_at 1)
                    - last_log_time (initial_state 0 0 main_manager))%Q)
    by (vm_compute; discriminate).
  assert (H3 : ∀ cmd e', check_output (load_unavailable_at 1) cmd = Raise e' →
                         is_Exception e' = true)
    by (intros cmd e' [= <-]; reflexivity).
  assert (H4 : OSError ≠ KeyboardInterrupt) by discriminate.
  split; [exact H1|]. split; [exact H2|]. split; [exact H3|].
  split; [reflexivity|]. split; [exact H4|].
  exact (proj1 (@load_average_failure_is_not_handled example_runtime
                  4 0 0 _ [desktop_at 2] _ _ _ _ H1 H2 H3 eq_refl H4)).
Defined.
